(** * The progress ledger of the tennis-form analyser

    A shallow embedding of [backend/database/progress_manager.py]: the
    per-user aggregate [UserProgress], the experience and level engine, the
    badge evaluator, the trend analyser and the JSON persistence of the
    [ProgressManager] class, followed by the properties of the ledger.

    Python values are modelled as follows.
    - [int] is [Z]; [float] is the kernel's binary64 [float], compared and
      combined with the IEEE operations of [PrimFloat];
    - [str] is [string] (the UTF-8 bytes of the text);
    - a naive [datetime] is the count of microseconds on the proleptic
      calendar, a [Z]: comparison is [Z.leb] and subtracting a [timedelta]
      is integer subtraction;
    - a [dict] used as a map ([progress_data], [category_scores]) is a
      [gmap]; a [dict] literal whose iteration order the code relies on
      (the level table, the badge catalogue) and a JSON object are
      association lists; a [set] is a [gset];
    - the object state of the manager and the file it owns are threaded
      through a small state monad. *)

From Stdlib Require Import ZArith Floats.PrimFloat Floats.FloatOps Floats.SpecFloat Uint63.
From Stdlib Require Import DecimalString DecimalZ.
From stdpp Require Import gmap strings list fin_maps.

Open Scope Z_scope.

(** ** The Python runtime the module calls into

    [datetime.now], [datetime.isoformat], [datetime.fromisoformat] and the
    builtin [round(x, 1)] on floats belong to the interpreter, not to the
    repository; the model takes them as an interface.  [now k] is the value
    of the k-th call of [datetime.now()] since the process started. *)

Class PyRuntime := {
  now : nat -> Z;
  isoformat : Z -> string;
  fromisoformat : string -> option Z;
  round1 : float -> float
}.

(** [timedelta(days=n)] in microseconds. *)
Definition timedelta_days (n : Z) : Z := n * 86400000000.

(** [str(n)] for an [int]. *)
Definition str_of_int (n : Z) : string := NilZero.string_of_int (Z.to_int n).

(** ** JSON documents

    What [json.dump] writes and [json.load] returns: the file holds one
    document.  An object lists its members in file order. *)

#[warnings="-register-all"]
Inductive json :=
| JNull
| JBool (b : bool)
| JInt (n : Z)
| JFloat (x : float)
| JStr (s : string)
| JList (items : list json)
| JObj (members : list (string * json)).

(** [d.get(key)] on a loaded object. *)
Fixpoint obj_get (key : string) (members : list (string * json)) : option json :=
  match members with
  | [] => None
  | (k, v) :: rest => if String.eqb k key then Some v else obj_get key rest
  end.

(** ** Data model *)

(** [class AnalysisRecord]; [category_scores] defaults to [None]. *)
Module AnalysisRecord.

Record t := mk {
  session_id : string;
  date : Z;
  overall_score : float;
  angle : string;
  category_scores : option (gmap string float)
}.

(** [AnalysisRecord.to_dict]; [self.category_scores or {}] turns both
    [None] and the empty dict into the empty object. *)
Definition to_dict `{PyRuntime} (self : t) : json :=
  JObj [ ("session_id", JStr (session_id self));
         ("date", JStr (isoformat (date self)));
         ("overall_score", JFloat (overall_score self));
         ("angle", JStr (angle self));
         ("category_scores",
           JObj (map_to_list (JFloat <$> default ∅ (category_scores self)))) ].

End AnalysisRecord.

(** [class Badge]. *)
Module Badge.

Record t := mk {
  id : string;
  name : string;
  description : string;
  earned_date : Z;
  icon : string
}.

(** [Badge.to_dict]. *)
Definition to_dict `{PyRuntime} (self : t) : json :=
  JObj [ ("id", JStr (id self));
         ("name", JStr (name self));
         ("description", JStr (description self));
         ("earned_date", JStr (isoformat (earned_date self)));
         ("icon", JStr (icon self)) ].

End Badge.

(** [class UserProgress], after [__post_init__]: the two lists and
    [created_date] are never [None]. *)
Record UserProgress := {
  user_id : string;
  total_analyses : Z;
  current_level : Z;
  experience_points : Z;
  analysis_records : list AnalysisRecord.t;
  badges : list Badge.t;
  created_date : Z;
  last_analysis_date : option Z
}.

(** ** Experience and level engine *)

(** [ProgressManager._calculate_experience_points]. *)
Definition _calculate_experience_points (score : float) : Z :=
  let base_points := 10 in
  let bonus :=
    if (90 <=? score)%float then 20
    else if (80 <=? score)%float then 15
    else if (70 <=? score)%float then 10
    else if (60 <=? score)%float then 5
    else 0 in
  base_points + bonus.

(** One row of [_define_level_requirements]. *)
Record LevelRequirement := {
  level_name : string;
  min_points : Z;
  min_analyses : Z
}.

(** [ProgressManager._define_level_requirements], in the order of the
    dict literal. *)
Definition _define_level_requirements : list (Z * LevelRequirement) :=
  [ (1, {| level_name := "ビギナー"; min_points := 0; min_analyses := 0 |});
    (2, {| level_name := "プレイヤー"; min_points := 100; min_analyses := 5 |});
    (3, {| level_name := "スキルドプレイヤー"; min_points := 300; min_analyses := 15 |});
    (4, {| level_name := "アドバンスプレイヤー"; min_points := 600; min_analyses := 30 |});
    (5, {| level_name := "エキスパート"; min_points := 1000; min_analyses := 50 |});
    (6, {| level_name := "マスター"; min_points := 1500; min_analyses := 75 |});
    (7, {| level_name := "レジェンド"; min_points := 2500; min_analyses := 100 |}) ].

(** The loop of [_check_level_up] over a level table, [current_level]
    being the running maximum. *)
Definition level_scan (table : list (Z * LevelRequirement))
    (progress : UserProgress) (start : Z) : Z :=
  fold_left
    (fun current_level '(level, requirements) =>
       if (min_points requirements <=? experience_points progress)
          && (min_analyses requirements <=? total_analyses progress)
       then Z.max current_level level
       else current_level)
    table start.

(** [ProgressManager._check_level_up]. *)
Definition _check_level_up (progress : UserProgress) : Z :=
  level_scan _define_level_requirements progress (current_level progress).

(** ** The badge catalogue *)

(** One entry of [_define_badges]. *)
Record BadgeDefinition := {
  def_name : string;
  def_description : string;
  def_icon : string;
  auto_award : bool;
  condition : string
}.

(** [ProgressManager._define_badges], in the order of the dict literal. *)
Definition _define_badges : list (string * BadgeDefinition) :=
  [ ("first_analysis",
      {| def_name := "初回解析"; def_description := "初めての動画解析を完了";
         def_icon := "🎾"; auto_award := true;
         condition := "analysis_count >= 1" |});
    ("consistent_week",
      {| def_name := "継続の一歩"; def_description := "1週間以内に3回解析";
         def_icon := "📅"; auto_award := true;
         condition := "weekly_analyses >= 3" |});
    ("form_improver",
      {| def_name := "フォーム改善者"; def_description := "総合スコアが20ポイント向上";
         def_icon := "📈"; auto_award := true;
         condition := "score_improvement >= 20" |});
    ("stance_master",
      {| def_name := "スタンスマスター"; def_description := "スタンススコア90点以上を達成";
         def_icon := "🏛️"; auto_award := true;
         condition := "stance_score >= 90" |});
    ("swing_artist",
      {| def_name := "スイングアーティスト"; def_description := "スイング軌道スコア85点以上を達成";
         def_icon := "🎨"; auto_award := true;
         condition := "swing_score >= 85" |});
    ("balance_keeper",
      {| def_name := "バランスキーパー"; def_description := "バランススコア85点以上を達成";
         def_icon := "⚖️"; auto_award := true;
         condition := "balance_score >= 85" |});
    ("monthly_warrior",
      {| def_name := "月間戦士"; def_description := "1ヶ月間継続練習";
         def_icon := "🗓️"; auto_award := true;
         condition := "monthly_analyses >= 8" |});
    ("perfectionist",
      {| def_name := "完璧主義者"; def_description := "総合スコア95点以上を達成";
         def_icon := "💎"; auto_award := true;
         condition := "overall_score >= 95" |});
    ("dedicated_student",
      {| def_name := "熱心な生徒"; def_description := "50回の解析を完了";
         def_icon := "📚"; auto_award := true;
         condition := "total_analyses >= 50" |});
    ("improvement_champion",
      {| def_name := "改善チャンピオン"; def_description := "全カテゴリで80点以上を達成";
         def_icon := "🏆"; auto_award := true;
         condition := "all_categories_above_80" |}) ].

(** [badge_id in self.badge_definitions] and [self.badge_definitions[badge_id]]. *)
Fixpoint badge_lookup (defs : list (string * BadgeDefinition)) (badge_id : string)
    : option BadgeDefinition :=
  match defs with
  | [] => None
  | (k, d) :: rest => if String.eqb k badge_id then Some d else badge_lookup rest badge_id
  end.

(** ** Python list and string helpers *)

(** The slice [l[-n:]] for a positive [n]. *)
Definition last_n {A} (n : nat) (l : list A) : list A :=
  drop (length l - n) l.

(** The builtin [max] on a list of floats: the first element, replaced by
    each later one that compares greater; [None] stands for the
    [ValueError] on an empty list. *)
Definition py_max (l : list float) : option float :=
  match l with
  | [] => None
  | x :: rest => Some (fold_left (fun m y => if (m <? y)%float then y else m) rest x)
  end.

(** [needle in haystack] on strings. *)
Fixpoint str_contains (needle haystack : string) : bool :=
  String.prefix needle haystack
  || match haystack with
     | EmptyString => false
     | String _ rest => str_contains needle rest
     end.

(** ** The manager's state

    [progress_data] is the attribute of that name; [disk] is what the file
    [self.data_file] holds ([None] when the file is absent or is not a
    JSON text: [_load_data] answers the empty store for both);
    [clock_reads] counts the calls of [datetime.now()] made so far. *)

Record World := {
  progress_data : gmap string UserProgress;
  disk : option json;
  clock_reads : nat
}.

Definition M (A : Type) : Type := World -> A * World.

#[global] Instance M_ret : MRet M := fun A a w => (a, w).

#[global] Instance M_bind : MBind M :=
  fun A B k c w => let '(a, w') := c w in k a w'.

(** [datetime.now()]. *)
Definition datetime_now `{PyRuntime} : M Z :=
  fun w => (now (clock_reads w),
            {| progress_data := progress_data w; disk := disk w;
               clock_reads := S (clock_reads w) |}).

(** [self.progress_data.get(user_id)]. *)
Definition get_progress (uid : string) : M (option UserProgress) :=
  fun w => (progress_data w !! uid, w).

(** [self.progress_data[user_id] = progress]; also stands for the in-place
    mutation of the aggregate that the dict already holds. *)
Definition put_progress (uid : string) (progress : UserProgress) : M unit :=
  fun w => (tt, {| progress_data := <[uid := progress]> (progress_data w);
                   disk := disk w; clock_reads := clock_reads w |}).

(** ** Badge evaluator *)

Section Evaluator.
Context `{PyRuntime}.

(** [ProgressManager._check_category_score]. *)
Definition _check_category_score (progress : UserProgress) (category : string)
    (threshold : float) : bool :=
  let records := analysis_records progress in
  let recent_records :=
    if (3 <=? length records)%nat then last_n 3 records else records in
  existsb
    (fun record =>
       match AnalysisRecord.category_scores record with
       | Some scores =>
           match scores !! category with
           | Some value => (threshold <=? value)%float
           | None => false
           end
       | None => false
       end)
    recent_records.

(** [ProgressManager._check_badge_condition]. *)
Definition _check_badge_condition (progress : UserProgress) (condition : string)
    : M bool :=
  let records := analysis_records progress in
  if String.eqb condition "analysis_count >= 1" then
    mret (1 <=? total_analyses progress)
  else if String.eqb condition "weekly_analyses >= 3" then
    t ← datetime_now;
    let week_ago := t - timedelta_days 7 in
    let weekly_count :=
      length (filter (fun record => week_ago ≤ AnalysisRecord.date record) records) in
    mret (3 <=? weekly_count)%nat
  else if String.eqb condition "monthly_analyses >= 8" then
    t ← datetime_now;
    let month_ago := t - timedelta_days 30 in
    let monthly_count :=
      length (filter (fun record => month_ago ≤ AnalysisRecord.date record) records) in
    mret (8 <=? monthly_count)%nat
  else if String.eqb condition "score_improvement >= 20" then
    if (length records <? 5)%nat then mret false
    else
      let recent_scores := AnalysisRecord.overall_score <$> last_n 5 records in
      let early_scores := AnalysisRecord.overall_score <$> take 5 records in
      match py_max recent_scores, py_max early_scores with
      | Some recent_best, Some early_best =>
          let improvement := (recent_best - early_best)%float in
          mret (20 <=? improvement)%float
      | _, _ => mret false
      end
  else if String.eqb condition "overall_score >= 95" then
    let recent_records :=
      if (3 <=? length records)%nat then last_n 3 records else records in
    mret (existsb (fun record => (95 <=? AnalysisRecord.overall_score record)%float)
            recent_records)
  else if String.eqb condition "total_analyses >= 50" then
    mret (50 <=? total_analyses progress)
  else if str_contains "stance_score >= 90" condition then
    mret (_check_category_score progress "stance" 90)
  else if str_contains "swing_score >= 85" condition then
    mret (_check_category_score progress "swing_path" 85)
  else if str_contains "balance_score >= 85" condition then
    mret (_check_category_score progress "balance" 85)
  else mret false.

(** [progress.badges.append(badge)]. *)
Definition append_badge (progress : UserProgress) (badge : Badge.t) : UserProgress :=
  {| user_id := user_id progress;
     total_analyses := total_analyses progress;
     current_level := current_level progress;
     experience_points := experience_points progress;
     analysis_records := analysis_records progress;
     badges := badges progress ++ [badge];
     created_date := created_date progress;
     last_analysis_date := last_analysis_date progress |}.

(** [ProgressManager._award_badge_internal]. *)
Definition _award_badge_internal (progress : UserProgress) (badge_id : string)
    : M UserProgress :=
  match badge_lookup _define_badges badge_id with
  | Some badge_def =>
      t ← datetime_now;
      mret (append_badge progress
              {| Badge.id := badge_id;
                 Badge.name := def_name badge_def;
                 Badge.description := def_description badge_def;
                 Badge.earned_date := t;
                 Badge.icon := def_icon badge_def |})
  | None => mret progress
  end.

(** [ProgressManager._award_level_up_badge]. *)
Definition _award_level_up_badge (progress : UserProgress) (level : Z)
    : M UserProgress :=
  let level_badge_id := "level_" +:+ str_of_int level in
  t ← datetime_now;
  mret (append_badge progress
          {| Badge.id := level_badge_id;
             Badge.name := "レベル" +:+ str_of_int level +:+ "達成";
             Badge.description := "レベル" +:+ str_of_int level +:+ "に到達しました";
             Badge.earned_date := t;
             Badge.icon := "⭐" |}).

(** [{badge.id for badge in progress.badges}]. *)
Definition earned_ids (progress : UserProgress) : gset string :=
  list_to_set (Badge.id <$> badges progress).

(** The loop of [_check_auto_badges] over the catalogue; [earned] is the
    set computed before the loop, [progress] the aggregate as mutated so
    far. *)
Fixpoint auto_badge_loop (earned : gset string)
    (defs : list (string * BadgeDefinition)) (progress : UserProgress)
    : M UserProgress :=
  match defs with
  | [] => mret progress
  | (badge_id, badge_def) :: rest =>
      if negb (auto_award badge_def) then auto_badge_loop earned rest progress
      else if bool_decide (badge_id ∈ earned) then auto_badge_loop earned rest progress
      else
        satisfied ← _check_badge_condition progress (condition badge_def);
        if (satisfied : bool) then
          progress' ← _award_badge_internal progress badge_id;
          auto_badge_loop earned rest progress'
        else auto_badge_loop earned rest progress
  end.

(** [ProgressManager._check_auto_badges]. *)
Definition _check_auto_badges (progress : UserProgress) : M UserProgress :=
  auto_badge_loop (earned_ids progress) _define_badges progress.

End Evaluator.

(** ** Persistence *)

Section Persistence.
Context `{PyRuntime}.

(** The [user_dict] that [_save_data] builds for one aggregate. *)
Definition user_dict (progress : UserProgress) : json :=
  JObj [ ("user_id", JStr (user_id progress));
         ("total_analyses", JInt (total_analyses progress));
         ("current_level", JInt (current_level progress));
         ("experience_points", JInt (experience_points progress));
         ("created_date", JStr (isoformat (created_date progress)));
         ("last_analysis_date",
           match last_analysis_date progress with
           | Some d => JStr (isoformat d)
           | None => JNull
           end);
         ("analysis_records",
           JList (AnalysisRecord.to_dict <$> analysis_records progress));
         ("badges", JList (Badge.to_dict <$> badges progress)) ].

(** The document [save_data] of [_save_data]: one member per user. *)
Definition save_document (data : gmap string UserProgress) : json :=
  JObj (prod_map id user_dict <$> map_to_list data).

(** [ProgressManager._save_data]: the whole store replaces the file. *)
Definition _save_data : M unit :=
  fun w => (tt, {| progress_data := progress_data w;
                   disk := Some (save_document (progress_data w));
                   clock_reads := clock_reads w |}).

(** Readers of typed values.  A value of another JSON type would give an
    aggregate that [UserProgress] cannot hold; the model counts it as a
    read error, like the exceptions of [_load_data]. *)
Definition as_str (j : json) : option string :=
  match j with JStr s => Some s | _ => None end.

Definition as_int (j : json) : option Z :=
  match j with JInt n => Some n | _ => None end.

Definition as_float (j : json) : option float :=
  match j with JFloat x => Some x | _ => None end.

(** [datetime.fromisoformat(value)]: a [TypeError] unless [value] is a
    string. *)
Definition load_datetime (j : json) : option Z :=
  s ← as_str j; fromisoformat s.

(** A dataclass built from the members as keyword arguments accepts no
    keyword outside its [fields]. *)
Definition keywords_ok (fields : list string) (members : list (string * json)) : bool :=
  forallb (fun member => bool_decide (member.1 ∈ fields)) members.

(** A field with a default: [None] of the outer option is a read error. *)
Definition field_or {A} (read : json -> option A) (dflt : A) (key : string)
    (members : list (string * json)) : option A :=
  match obj_get key members with
  | Some j => read j
  | None => Some dflt
  end.

(** A [category_scores] member: an object of floats, or [null]. *)
Definition load_scores (j : json) : option (option (gmap string float)) :=
  match j with
  | JNull => Some None
  | JObj members =>
      values ← mapM (fun member => x ← as_float member.2; Some (member.1, x)) members;
      Some (Some (list_to_map values))
  | _ => None
  end.

(** One turn of the [AnalysisRecord] loop of [_load_data]. *)
Definition load_record (record_data : json) : option AnalysisRecord.t :=
  match record_data with
  | JObj members =>
      d ← obj_get "date" members ≫= load_datetime;
      guard (keywords_ok
               ["session_id"; "date"; "overall_score"; "angle"; "category_scores"]
               members = true);;
      sid ← obj_get "session_id" members ≫= as_str;
      score ← obj_get "overall_score" members ≫= as_float;
      ang ← obj_get "angle" members ≫= as_str;
      scores ← field_or load_scores None "category_scores" members;
      Some {| AnalysisRecord.session_id := sid;
              AnalysisRecord.date := d;
              AnalysisRecord.overall_score := score;
              AnalysisRecord.angle := ang;
              AnalysisRecord.category_scores := scores |}
  | _ => None
  end.

(** One turn of the [Badge] loop of [_load_data]. *)
Definition load_badge (badge_data : json) : option Badge.t :=
  match badge_data with
  | JObj members =>
      d ← obj_get "earned_date" members ≫= load_datetime;
      guard (keywords_ok ["id"; "name"; "description"; "earned_date"; "icon"]
               members = true);;
      bid ← obj_get "id" members ≫= as_str;
      nm ← obj_get "name" members ≫= as_str;
      descr ← obj_get "description" members ≫= as_str;
      ic ← field_or as_str "🏆" "icon" members;
      Some {| Badge.id := bid; Badge.name := nm; Badge.description := descr;
              Badge.earned_date := d; Badge.icon := ic |}
  | _ => None
  end.

(** [for item in user_data.get(key, [])]: a list is walked; an empty
    string or object gives no turn; anything else raises inside the loop
    or at its start. *)
Definition load_items {A} (read : json -> option A) (key : string)
    (members : list (string * json)) : option (list A) :=
  match obj_get key members with
  | None => Some []
  | Some (JList items) => mapM read items
  | Some (JStr "") => Some []
  | Some (JObj []) => Some []
  | Some _ => None
  end.

(** The body of the user loop of [_load_data]. *)
Definition load_user (user_data : json) : option UserProgress :=
  match user_data with
  | JObj members =>
      created ← obj_get "created_date" members ≫= load_datetime;
      last ← match obj_get "last_analysis_date" members with
             | None | Some JNull => Some None
             | Some (JStr "") => None
             | Some j => Some <$> load_datetime j
             end;
      records ← load_items load_record "analysis_records" members;
      earned ← load_items load_badge "badges" members;
      guard (keywords_ok
               ["user_id"; "total_analyses"; "current_level"; "experience_points";
                "analysis_records"; "badges"; "created_date"; "last_analysis_date"]
               members = true);;
      uid ← obj_get "user_id" members ≫= as_str;
      total ← field_or as_int 0 "total_analyses" members;
      level ← field_or as_int 1 "current_level" members;
      points ← field_or as_int 0 "experience_points" members;
      Some {| user_id := uid; total_analyses := total; current_level := level;
              experience_points := points; analysis_records := records;
              badges := earned; created_date := created;
              last_analysis_date := last |}
  | _ => None
  end.

(** The [try] block of [_load_data] on a parsed document: [None] is an
    exception. *)
Definition load_document (data : json) : option (gmap string UserProgress) :=
  match data with
  | JObj members =>
      foldl
        (fun progress_dict member =>
           d ← progress_dict;
           progress ← load_user member.2;
           Some (<[member.1 := progress]> d))
        (Some ∅) members
  | _ => None
  end.

(** [ProgressManager._load_data]: the empty store when there is no file
    and when reading it raises. *)
Definition _load_data (file : option json) : gmap string UserProgress :=
  match file with
  | Some data => default ∅ (load_document data)
  | None => ∅
  end.

(** [ProgressManager.__init__] for a process that starts with [file] on
    disk. *)
Definition init (file : option json) : World :=
  {| progress_data := _load_data file; disk := file; clock_reads := 0 |}.

End Persistence.

(** ** Mutating operations *)

(** The dict that [add_analysis_record] returns. *)
Record AddResult := {
  exp_gained : Z;
  new_level : option Z;
  new_badges : list Badge.t
}.

Section Operations.
Context `{PyRuntime}.

(** [UserProgress(user_id=user_id)]: [__post_init__] reads the clock for
    [created_date]. *)
Definition new_user (uid : string) : M UserProgress :=
  t ← datetime_now;
  mret {| user_id := uid; total_analyses := 0; current_level := 1;
          experience_points := 0; analysis_records := []; badges := [];
          created_date := t; last_analysis_date := None |}.

(** [ProgressManager.add_analysis_record]; [uid], [sid], [ang] and
    [scores] are its parameters [user_id], [session_id], [angle] and
    [category_scores], named apart from the fields.  [progress] is the
    aggregate held by the dict; it is written back once the call has
    finished mutating it, which nothing in between can tell from mutation
    in place. *)
Definition add_analysis_record (uid sid : string) (score : float)
    (ang : string) (scores : option (gmap string float)) : M AddResult :=
  found ← get_progress uid;
  progress ← match found with
             | Some progress => mret progress
             | None => new_user uid
             end;
  t_record ← datetime_now;
  let record :=
    {| AnalysisRecord.session_id := sid; AnalysisRecord.date := t_record;
       AnalysisRecord.overall_score := score; AnalysisRecord.angle := ang;
       AnalysisRecord.category_scores := scores |} in
  t_last ← datetime_now;
  let exp_gained := _calculate_experience_points score in
  let progress :=
    {| user_id := user_id progress;
       total_analyses := total_analyses progress + 1;
       current_level := current_level progress;
       experience_points := experience_points progress + exp_gained;
       analysis_records := analysis_records progress ++ [record];
       badges := badges progress;
       created_date := created_date progress;
       last_analysis_date := Some t_last |} in
  let new_level := _check_level_up progress in
  progress ← (if current_level progress <? new_level then
                _award_level_up_badge
                  {| user_id := user_id progress;
                     total_analyses := total_analyses progress;
                     current_level := new_level;
                     experience_points := experience_points progress;
                     analysis_records := analysis_records progress;
                     badges := badges progress;
                     created_date := created_date progress;
                     last_analysis_date := last_analysis_date progress |}
                  new_level
              else mret progress);
  progress ← _check_auto_badges progress;
  put_progress uid progress;;
  _save_data;;
  mret {| exp_gained := exp_gained;
          new_level := if current_level progress <? new_level
                       then Some new_level else None;
          new_badges := [] |}.

(** [ProgressManager.award_badge]. *)
Definition award_badge (uid badge_id : string) : M bool :=
  found ← get_progress uid;
  match found with
  | None => mret false
  | Some progress =>
      match badge_lookup _define_badges badge_id with
      | None => mret false
      | Some _ =>
          if bool_decide (badge_id ∈ earned_ids progress) then mret false
          else
            progress ← _award_badge_internal progress badge_id;
            put_progress uid progress;;
            _save_data;;
            mret true
      end
  end.

End Operations.

(** ** Progress queries *)

(** A Python number that is an [int] or a [float]: [change_rate] is the
    [int] 0 on the guarded branches and a [float] otherwise. *)
Inductive number :=
| NInt (n : Z)
| NFloat (x : float).

(** The value of the ["overall"] key of the trend dict. *)
Module TrendReport.
Record t := mk {
  trend : string;
  change_rate : number;
  description : string
}.
End TrendReport.

(** One element of [score_history]. *)
Module ScoreEntry.
Record t := mk {
  date : string;
  overall_score : float;
  angle : string;
  session_id : string
}.
End ScoreEntry.

(** The dict of [_get_next_level_requirements]. *)
Module NextLevel.
Record t := mk {
  level : Z;
  name : string;
  points_needed : Z;
  analyses_needed : Z;
  description : string
}.
End NextLevel.

(** The dict of [get_user_progress]. *)
Module Snapshot.
Record t := mk {
  user_id : string;
  total_analyses : Z;
  current_level : Z;
  experience_points : Z;
  badges : list json;
  score_history : list ScoreEntry.t;
  improvement_trends : option TrendReport.t;
  next_level_requirements : NextLevel.t;
  last_analysis_date : option string
}.
End Snapshot.

Section Queries.
Context `{PyRuntime}.

(** [round(change_rate, 1)]: an [int] is returned as it is. *)
Definition py_round1 (x : number) : number :=
  match x with
  | NInt n => NInt n
  | NFloat f => NFloat (round1 f)
  end.

(** [change_rate > 10]. *)
Definition above_ten (x : number) : bool :=
  match x with
  | NInt n => 10 <? n
  | NFloat f => (10 <? f)%float
  end.

(** [ProgressManager._get_trend_description]. *)
Definition _get_trend_description (trend : string) (change_rate : number) : string :=
  if String.eqb trend "improving" then
    if above_ten change_rate then "素晴らしい上達を見せています！"
    else "着実に改善が見られます"
  else if String.eqb trend "declining" then
    "少し調子が落ちているようです。基礎練習を重視しましょう"
  else "安定したパフォーマンスを維持しています".

(** The [trend] and [change_rate] that [_analyze_improvement_trends]
    computes from [scores]; the first pattern is [len(scores) >= 2]. *)
Definition trend_of_scores (scores : list float) : string * number :=
  match scores with
  | first :: _ :: _ =>
      let final := List.last scores first in
      let trend :=
        if (first <? final)%float then "improving"
        else if (abs (final - first) <? 5)%float then "stable"
        else "declining" in
      let change_rate :=
        if (0 <? first)%float then NFloat ((final - first) / first * 100)%float
        else NInt 0 in
      (trend, change_rate)
  | _ => ("stable", NInt 0)
  end.

(** [ProgressManager._analyze_improvement_trends]; [None] is the empty
    dict. *)
Definition _analyze_improvement_trends (progress : UserProgress)
    : M (option TrendReport.t) :=
  if (length (analysis_records progress) <? 3)%nat then mret None
  else
    t ← datetime_now;
    let month_ago := t - timedelta_days 30 in
    let recent_records :=
      filter (fun r => month_ago ≤ AnalysisRecord.date r) (analysis_records progress) in
    if (length recent_records <? 2)%nat then mret None
    else
      let scores := AnalysisRecord.overall_score <$> recent_records in
      let '(trend, change_rate) := trend_of_scores scores in
      mret (Some {| TrendReport.trend := trend;
                    TrendReport.change_rate := py_round1 change_rate;
                    TrendReport.description :=
                      _get_trend_description trend change_rate |}).

(** [ProgressManager._get_score_history]. *)
Definition _get_score_history (progress : UserProgress) : list ScoreEntry.t :=
  (fun record =>
     {| ScoreEntry.date := isoformat (AnalysisRecord.date record);
        ScoreEntry.overall_score := AnalysisRecord.overall_score record;
        ScoreEntry.angle := AnalysisRecord.angle record;
        ScoreEntry.session_id := AnalysisRecord.session_id record |})
  <$> last_n 10 (analysis_records progress).

(** [level in self.level_requirements] and the entry found. *)
Fixpoint level_lookup (table : list (Z * LevelRequirement)) (level : Z)
    : option LevelRequirement :=
  match table with
  | [] => None
  | (k, req) :: rest => if k =? level then Some req else level_lookup rest level
  end.

(** [ProgressManager._get_next_level_requirements]. *)
Definition _get_next_level_requirements (current_level : Z) : NextLevel.t :=
  let next_level := current_level + 1 in
  match level_lookup _define_level_requirements next_level with
  | Some req =>
      {| NextLevel.level := next_level;
         NextLevel.name := level_name req;
         NextLevel.points_needed := min_points req;
         NextLevel.analyses_needed := min_analyses req;
         NextLevel.description :=
           "レベル" +:+ str_of_int next_level +:+ "「" +:+ level_name req
           +:+ "」まであと少し！" |}
  | None =>
      {| NextLevel.level := current_level;
         NextLevel.name := "最高レベル";
         NextLevel.points_needed := 0;
         NextLevel.analyses_needed := 0;
         NextLevel.description := "おめでとうございます！最高レベルに到達しました！" |}
  end.

(** [ProgressManager.get_user_progress]. *)
Definition get_user_progress (uid : string) : M (option Snapshot.t) :=
  found ← get_progress uid;
  match found with
  | None => mret None
  | Some progress =>
      improvement_trends ← _analyze_improvement_trends progress;
      let next_level_req := _get_next_level_requirements (current_level progress) in
      mret (Some
        {| Snapshot.user_id := uid;
           Snapshot.total_analyses := total_analyses progress;
           Snapshot.current_level := current_level progress;
           Snapshot.experience_points := experience_points progress;
           Snapshot.badges := Badge.to_dict <$> badges progress;
           Snapshot.score_history := _get_score_history progress;
           Snapshot.improvement_trends := improvement_trends;
           Snapshot.next_level_requirements := next_level_req;
           Snapshot.last_analysis_date := isoformat <$> last_analysis_date progress |})
  end.

End Queries.

(** ** Sequences of calls *)

(** What the analysis pipeline delivers for one session:
    [(user_id, session_id, score, angle, category_scores)]. *)
Record Submission := {
  sub_user : string;
  sub_session : string;
  sub_score : float;
  sub_angle : string;
  sub_scores : option (gmap string float)
}.

(** A mutating call of the exposed interface. *)
Inductive call :=
| Submit (s : Submission)
| Award (uid badge_id : string).

Section Calls.
Context `{PyRuntime}.

Definition submit (s : Submission) : M AddResult :=
  add_analysis_record (sub_user s) (sub_session s) (sub_score s) (sub_angle s)
    (sub_scores s).

(** The world after one call, the returned value dropped. *)
Definition perform (w : World) (c : call) : World :=
  match c with
  | Submit s => (submit s w).2
  | Award uid badge_id => (award_badge uid badge_id w).2
  end.

(** The world after a sequence of calls, in order. *)
Definition perform_all (calls : list call) (w : World) : World :=
  foldl perform w calls.

End Calls.

(** How many badges with id [badge_id] an aggregate holds. *)
Definition count_id (badge_id : string) (earned : list Badge.t) : nat :=
  length (filter (fun b => Badge.id b = badge_id) earned).

(** The same, for a user of the store; an unknown user holds none. *)
Definition held_count (w : World) (uid badge_id : string) : nat :=
  from_option (fun p => count_id badge_id (badges p)) 0%nat (progress_data w !! uid).

(** ** Properties of the experience engine *)

Lemma experience_cases (score : float) :
  _calculate_experience_points score = 30 \/
  _calculate_experience_points score = 25 \/
  _calculate_experience_points score = 20 \/
  _calculate_experience_points score = 15 \/
  _calculate_experience_points score = 10.
Proof.
  unfold _calculate_experience_points.
  repeat case_match; auto.
Qed.

Lemma experience_range (score : float) :
  10 <= _calculate_experience_points score <= 30.
Proof.
  destruct (experience_cases score) as [E|[E|[E|[E|E]]]]; rewrite E; lia.
Qed.

(** C4. The experience of a score is 10 base points plus the bonus of the
    highest tier the score reaches: 30 from 90 up, 25 from 80, 20 from 70,
    15 from 60 and 10 otherwise; so 95, 85, 72, 65 and 40 earn 30, 25, 20,
    15 and 10.  A score that compares with nothing (NaN) reaches no tier. *)
Theorem experience_for_tiers :
  (forall score : float,
     _calculate_experience_points score =
       if (90 <=? score)%float then 10 + 20
       else if (80 <=? score)%float then 10 + 15
       else if (70 <=? score)%float then 10 + 10
       else if (60 <=? score)%float then 10 + 5
       else 10 + 0) /\
  _calculate_experience_points 95 = 30 /\
  _calculate_experience_points 85 = 25 /\
  _calculate_experience_points 72 = 20 /\
  _calculate_experience_points 65 = 15 /\
  _calculate_experience_points 40 = 10.
Proof.
  split.
  - intros score. unfold _calculate_experience_points.
    repeat case_match; reflexivity.
  - repeat split; vm_compute; reflexivity.
Qed.

(** ** What the evaluator changes

    The badge functions touch one field of the aggregate, [badges], and of
    the world only the clock. *)

(** [progress] with [added] appended to its badges. *)
Definition award_more (progress : UserProgress) (added : list Badge.t) : UserProgress :=
  {| user_id := user_id progress;
     total_analyses := total_analyses progress;
     current_level := current_level progress;
     experience_points := experience_points progress;
     analysis_records := analysis_records progress;
     badges := badges progress ++ added;
     created_date := created_date progress;
     last_analysis_date := last_analysis_date progress |}.

(** [w] after [k] more readings of the clock. *)
Definition advance (k : nat) (w : World) : World :=
  {| progress_data := progress_data w; disk := disk w;
     clock_reads := (k + clock_reads w)%nat |}.

Lemma award_more_nil progress : award_more progress [] = progress.
Proof. destruct progress; unfold award_more; simpl. by rewrite app_nil_r. Qed.

Lemma award_more_app progress xs ys :
  award_more (award_more progress xs) ys = award_more progress (xs ++ ys).
Proof. unfold award_more; simpl. by rewrite app_assoc. Qed.

Lemma advance_0 w : advance 0 w = w.
Proof. by destruct w. Qed.

Lemma advance_advance j k w : advance j (advance k w) = advance (j + k) w.
Proof. unfold advance; simpl. f_equal. lia. Qed.

Ltac run_monad :=
  unfold mbind, M_bind, mret, M_ret, datetime_now, get_progress, put_progress in *;
  simpl in *.

Section EvaluatorFacts.
Context `{PyRuntime}.

Lemma datetime_now_run w :
  datetime_now w = (now (clock_reads w), advance 1 w).
Proof. reflexivity. Qed.

Lemma check_badge_condition_world progress cond w :
  exists k, (_check_badge_condition progress cond w).2 = advance k w.
Proof.
  unfold _check_badge_condition.
  repeat case_match; run_monad;
    first [ by exists 0%nat; rewrite advance_0 | by exists 1%nat ].
Qed.

Lemma award_badge_internal_run progress badge_id w :
  exists k added,
    _award_badge_internal progress badge_id w = (award_more progress added, advance k w)
    /\ Forall (fun b => Badge.id b = badge_id) added
    /\ (length added <= 1)%nat
    /\ (is_Some (badge_lookup _define_badges badge_id) -> length added = 1%nat).
Proof.
  unfold _award_badge_internal.
  destruct (badge_lookup _define_badges badge_id) as [badge_def|] eqn:E.
  - eexists 1%nat, [_]. run_monad. split; [reflexivity|].
    repeat split; auto.
  - exists 0%nat, []. run_monad. rewrite award_more_nil, advance_0.
    repeat split; auto. intros [? ?]; discriminate.
Qed.

Lemma award_level_up_badge_run progress level w :
  exists b,
    _award_level_up_badge progress level w = (award_more progress [b], advance 1 w)
    /\ Badge.id b = "level_" +:+ str_of_int level.
Proof. eexists. split; reflexivity. Qed.

(** The badges one run of the loop appends are catalogue entries of
    [defs] outside [earned], in catalogue order. *)
Lemma auto_badge_loop_run defs : forall earned progress w,
  exists k added,
    auto_badge_loop earned defs progress w = (award_more progress added, advance k w)
    /\ (Badge.id <$> added) `sublist_of` filter (fun b => b ∉ earned) defs.*1
    /\ Forall (fun b => exists badge_def progress' w',
                  (Badge.id b, badge_def) ∈ defs
                  /\ (_check_badge_condition progress' (condition badge_def) w').1 = true)
         added.
Proof.
  induction defs as [|[badge_id badge_def] rest IH]; intros earned progress w; simpl.
  - exists 0%nat, []. by rewrite award_more_nil, advance_0.
  - assert (Hweak : forall added : list Badge.t,
      Forall (fun b => exists bd progress' w',
                (Badge.id b, bd) ∈ rest
                /\ (_check_badge_condition progress' (condition bd) w').1 = true) added ->
      Forall (fun b => exists bd progress' w',
                (Badge.id b, bd) ∈ (badge_id, badge_def) :: rest
                /\ (_check_badge_condition progress' (condition bd) w').1 = true) added).
    { intros added HF. eapply Forall_impl; [exact HF|].
      intros b (bd & p' & w' & Hin & Hc).
      exists bd, p', w'. split; [by apply list_elem_of_further|done]. }
    destruct (auto_award badge_def); simpl.
    2:{ destruct (IH earned progress w) as (k & added & E & S & C).
        exists k, added. split; [done|]. split; [|by apply Hweak].
        rewrite filter_cons. case_decide; [by apply sublist_cons|done]. }
    case_bool_decide as Hin.
    { destruct (IH earned progress w) as (k & added & E & S & C).
      exists k, added. split; [done|]. split; [|by apply Hweak].
      rewrite filter_cons. case_decide; [done|done]. }
    rewrite filter_cons. rewrite decide_True by done.
    unfold mbind, M_bind.
    destruct (check_badge_condition_world progress (condition badge_def) w) as [k1 E1].
    destruct (_check_badge_condition progress (condition badge_def) w) as [ok w1] eqn:Hcheck.
    simpl in E1; subst w1.
    destruct ok.
    + destruct (award_badge_internal_run progress badge_id (advance k1 w))
        as (k2 & added1 & E2 & Hid & Hlen & _).
      rewrite E2.
      destruct (IH earned (award_more progress added1) (advance k2 (advance k1 w)))
        as (k3 & added & E3 & S & C).
      rewrite E3. exists (k3 + k2 + k1)%nat, (added1 ++ added).
      rewrite award_more_app, !advance_advance. split; [done|].
      split.
      * rewrite fmap_app.
        destruct added1 as [|b [|]]; simpl in *; try lia.
        -- by apply sublist_cons.
        -- inversion Hid; subst. by apply sublist_skip.
      * apply Forall_app. split; [|by apply Hweak].
        eapply Forall_impl; [exact Hid|]. intros b Hb. simpl in Hb.
        exists badge_def, progress, w. rewrite Hb, Hcheck.
        split; [apply list_elem_of_here|done].
    + destruct (IH earned progress (advance k1 w)) as (k3 & added & E3 & S & C).
      rewrite E3. exists (k3 + k1)%nat, added.
      rewrite advance_advance. split; [done|]. split; [|by apply Hweak].
      by apply sublist_cons.
Qed.

End EvaluatorFacts.

(** ** What one submission does *)

Lemma level_scan_ge table progress : forall start,
  start <= level_scan table progress start.
Proof.
  unfold level_scan.
  induction table as [|[level req] rest IH]; intros start; simpl; [lia|].
  case_match; [|apply IH].
  etrans; [|apply IH]. lia.
Qed.

Lemma check_level_up_ge progress :
  current_level progress <= _check_level_up progress.
Proof. apply level_scan_ge. Qed.

(** The aggregate of a user about to receive a record: the one the store
    holds, or the fresh one created at time [t]. *)
Definition base_progress (w : World) (uid : string) (t : Z) : UserProgress :=
  default
    {| user_id := uid; total_analyses := 0; current_level := 1;
       experience_points := 0; analysis_records := []; badges := [];
       created_date := t; last_analysis_date := None |}
    (progress_data w !! uid).

(** [base] after [record] was appended at [t_last], with its counters
    updated, [level] as its level and [extra] appended to its badges. *)
Definition recorded (base : UserProgress) (record : AnalysisRecord.t) (t_last : Z)
    (level : Z) (extra : list Badge.t) : UserProgress :=
  {| user_id := user_id base;
     total_analyses := total_analyses base + 1;
     current_level := level;
     experience_points :=
       experience_points base
       + _calculate_experience_points (AnalysisRecord.overall_score record);
     analysis_records := analysis_records base ++ [record];
     badges := badges base ++ extra;
     created_date := created_date base;
     last_analysis_date := Some t_last |}.

Section SubmissionFacts.
Context `{PyRuntime}.

(** The outcome of [add_analysis_record]: the stored aggregate, the file
    and the returned dict. *)
Lemma add_analysis_record_run uid sid score ang scores w :
  exists k record t_last level_badges added,
    let base := base_progress w uid (now (clock_reads w)) in
    let level := _check_level_up (recorded base record t_last (current_level base) []) in
    let final := recorded base record t_last level (level_badges ++ added) in
    let store := <[uid := final]> (progress_data w) in
    add_analysis_record uid sid score ang scores w =
      ({| exp_gained := _calculate_experience_points score;
          new_level := None; new_badges := [] |},
       {| progress_data := store; disk := Some (save_document store);
          clock_reads := (k + clock_reads w)%nat |})
    /\ AnalysisRecord.session_id record = sid
    /\ AnalysisRecord.overall_score record = score
    /\ AnalysisRecord.angle record = ang
    /\ AnalysisRecord.category_scores record = scores
    /\ current_level base <= level
    /\ (level_badges = [] /\ level = current_level base
        \/ exists b, level_badges = [b]
             /\ Badge.id b = "level_" +:+ str_of_int level
             /\ current_level base < level)
    /\ (Badge.id <$> added) `sublist_of`
         filter (fun b => b ∉ (list_to_set (Badge.id <$> badges base ++ level_badges)
                                : gset string))
           _define_badges.*1
    /\ Forall (fun b => exists badge_def progress' w',
                  (Badge.id b, badge_def) ∈ _define_badges
                  /\ (_check_badge_condition progress' (condition badge_def) w').1 = true)
         added
    /\ exists w1,
         final = (_check_auto_badges (recorded base record t_last level level_badges) w1).1.
Proof.
  unfold add_analysis_record.
  set (base := base_progress w uid (now (clock_reads w))).
  unfold mbind at 1, M_bind at 1, get_progress at 1.
  set (w0 := match progress_data w !! uid with Some _ => w | None => advance 1 w end).
  assert (Hbase : (match progress_data w !! uid with
                   | Some progress => mret progress
                   | None => new_user uid
                   end) w = (base, w0)).
  { subst base w0. unfold base_progress.
    destruct (progress_data w !! uid); reflexivity. }
  unfold mbind at 1, M_bind at 1. rewrite Hbase.
  assert (Hw0 : exists k0, w0 = advance k0 w).
  { subst w0. destruct (progress_data w !! uid);
      [exists 0%nat; by rewrite advance_0 | by exists 1%nat]. }
  destruct Hw0 as [k0 Hw0]. clearbody w0. subst w0. clear Hbase.
  unfold mbind at 1, M_bind at 1. rewrite datetime_now_run.
  unfold mbind at 1, M_bind at 1. rewrite datetime_now_run.
  set (t_record := now (clock_reads (advance k0 w))).
  set (t_last := now (clock_reads (advance 1 (advance k0 w)))).
  set (record := {| AnalysisRecord.session_id := sid; AnalysisRecord.date := t_record;
                    AnalysisRecord.overall_score := score; AnalysisRecord.angle := ang;
                    AnalysisRecord.category_scores := scores |}).
  rewrite !advance_advance.
  change (_calculate_experience_points score)
    with (_calculate_experience_points (AnalysisRecord.overall_score record)).
  set (p1 := {| user_id := user_id base; total_analyses := total_analyses base + 1;
                current_level := current_level base;
                experience_points :=
                  experience_points base
                  + _calculate_experience_points (AnalysisRecord.overall_score record);
                analysis_records := analysis_records base ++ [record];
                badges := badges base;
                created_date := created_date base;
                last_analysis_date := Some t_last |}).
  assert (Hp1 : p1 = recorded base record t_last (current_level base) []).
  { subst p1. unfold recorded. by rewrite app_nil_r. }
  pose proof (check_level_up_ge p1) as Hge. simpl in Hge.
  set (level := _check_level_up p1) in *.
  simpl (current_level p1).
  (* the level-up branch *)
  assert (Hlvl : exists k1 level_badges,
    (if current_level base <? level
     then _award_level_up_badge
            {| user_id := user_id p1; total_analyses := total_analyses p1;
               current_level := level; experience_points := experience_points p1;
               analysis_records := analysis_records p1; badges := badges p1;
               created_date := created_date p1;
               last_analysis_date := last_analysis_date p1 |} level
     else mret p1) (advance (1 + 1 + k0) w)
    = (recorded base record t_last level level_badges, advance k1 w)
    /\ (level_badges = [] /\ level = current_level base
        \/ exists b, level_badges = [b]
             /\ Badge.id b = "level_" +:+ str_of_int level
             /\ current_level base < level)).
  { destruct (Z.ltb_spec (current_level base) level) as [Hlt|Hnlt].
    - edestruct award_level_up_badge_run as (b & E & Hb). rewrite E.
      exists (1 + (1 + 1 + k0))%nat, [b]. rewrite advance_advance.
      split; [reflexivity|]. right. by exists b.
    - exists (1 + 1 + k0)%nat, []. split.
      + assert (level = current_level base) as -> by lia. by rewrite Hp1.
      + left. split; [done|lia]. }
  destruct Hlvl as (k1 & level_badges & Hrun & Hlb).
  unfold mbind at 1, M_bind at 1. rewrite Hrun.
  unfold mbind at 1, M_bind at 1. unfold _check_auto_badges.
  destruct (auto_badge_loop_run _define_badges
              (earned_ids (recorded base record t_last level level_badges))
              (recorded base record t_last level level_badges) (advance k1 w))
    as (k2 & added & Hloop & Hsub & Hcond).
  rewrite Hloop. rewrite advance_advance.
  assert (Hfinal : award_more (recorded base record t_last level level_badges) added
                   = recorded base record t_last level (level_badges ++ added)).
  { unfold award_more, recorded; simpl. by rewrite app_assoc. }
  rewrite Hfinal.
  exists (k2 + k1)%nat, record, t_last, level_badges, added.
  cbv zeta. rewrite <- Hp1. fold level.
  split.
  { unfold mbind, M_bind, put_progress, _save_data, mret, M_ret, advance.
    cbn [recorded current_level progress_data disk clock_reads].
    by rewrite Z.ltb_irrefl. }
  do 4 (split; [reflexivity|]).
  split; [exact Hge|]. split; [exact Hlb|]. split; [exact Hsub|].
  split; [exact Hcond|].
  exists (advance k1 w). unfold _check_auto_badges. by rewrite Hloop, Hfinal.
Qed.

End SubmissionFacts.

(** ** Counting badges *)

Lemma count_id_app badge_id xs ys :
  count_id badge_id (xs ++ ys) = (count_id badge_id xs + count_id badge_id ys)%nat.
Proof. unfold count_id. by rewrite filter_app, length_app. Qed.

Lemma count_id_zero badge_id xs :
  count_id badge_id xs = 0%nat <-> badge_id ∉ Badge.id <$> xs.
Proof.
  unfold count_id. induction xs as [|b xs IH]; simpl.
  - split; [intros _; apply not_elem_of_nil|done].
  - rewrite filter_cons, not_elem_of_cons. case_decide; simpl.
    + split; [done|]. intros [Hne _]. by destruct Hne.
    + rewrite IH. split; [intros ?; split; [congruence|done]|tauto].
Qed.

Lemma count_id_NoDup badge_id xs :
  NoDup (Badge.id <$> xs) -> (count_id badge_id xs <= 1)%nat.
Proof.
  unfold count_id. induction xs as [|b xs IH]; simpl; [lia|].
  rewrite NoDup_cons, filter_cons. intros [Hnotin Hnd].
  case_decide as E; simpl; [|by apply IH].
  subst badge_id. apply count_id_zero in Hnotin. unfold count_id in Hnotin. lia.
Qed.

(** ** Facts about the two tables *)

Lemma badge_keys_NoDup : NoDup _define_badges.*1.
Proof. apply (bool_decide_unpack _). by vm_compute. Qed.

Lemma badge_lookup_elem_of defs badge_id badge_def :
  badge_lookup defs badge_id = Some badge_def -> (badge_id, badge_def) ∈ defs.
Proof.
  induction defs as [|[k d] rest IH]; simpl; [done|].
  destruct (String.eqb_spec k badge_id) as [->|Hne].
  - intros [= ->]. apply list_elem_of_here.
  - intros E. apply list_elem_of_further. by apply IH.
Qed.

Lemma badge_lookup_key defs badge_id :
  is_Some (badge_lookup defs badge_id) <-> badge_id ∈ defs.*1.
Proof.
  induction defs as [|[k d] rest IH]; simpl.
  - split; [by intros [? ?]|by intros ?%elem_of_nil].
  - rewrite elem_of_cons. destruct (String.eqb_spec k badge_id) as [->|Hne].
    + split; [by left|by eexists].
    + rewrite IH. split; [by right|]. intros [?|?]; [congruence|done].
Qed.

Lemma prefix_app (p s : string) : String.prefix p (p +:+ s) = true.
Proof.
  induction p as [|a p IH]; simpl; [by destruct s|].
  destruct (Ascii.ascii_dec a a); [done|congruence].
Qed.

(** No catalogue key has the shape of a level badge id. *)
Lemma level_badge_not_in_catalogue level :
  "level_" +:+ str_of_int level ∉ _define_badges.*1.
Proof.
  intros Hin.
  assert (Hall : Forall (fun k => String.prefix "level_" k = false) _define_badges.*1).
  { apply (bool_decide_unpack _). by vm_compute. }
  rewrite Forall_forall in Hall. specialize (Hall _ Hin).
  by rewrite prefix_app in Hall.
Qed.

#[global] Arguments badge_lookup : simpl never.

Section AwardFacts.
Context `{PyRuntime}.

(** The outcome of [award_badge]. *)
Lemma award_badge_run uid badge_id w :
  match progress_data w !! uid with
  | None => award_badge uid badge_id w = (false, w)
  | Some progress =>
      if bool_decide (badge_id ∈ _define_badges.*1 /\ badge_id ∉ Badge.id <$> badges progress)
      then exists b,
        Badge.id b = badge_id
        /\ award_badge uid badge_id w =
             (true,
              let store := <[uid := award_more progress [b]]> (progress_data w) in
              {| progress_data := store; disk := Some (save_document store);
                 clock_reads := (1 + clock_reads w)%nat |})
      else award_badge uid badge_id w = (false, w)
  end.
Proof.
  unfold award_badge, mbind, M_bind, get_progress.
  destruct (progress_data w !! uid) as [progress|] eqn:Hget; [|done].
  case_bool_decide as Hdec.
  - destruct Hdec as [Hcat Hheld].
    apply badge_lookup_key in Hcat as Hsome. destruct Hsome as [bd Hbd]. rewrite Hbd.
    rewrite bool_decide_false; last first.
    { unfold earned_ids. by rewrite elem_of_list_to_set. }
    exists {| Badge.id := badge_id; Badge.name := def_name bd;
              Badge.description := def_description bd;
              Badge.earned_date := now (clock_reads w);
              Badge.icon := def_icon bd |}.
    split; [done|].
    unfold _award_badge_internal. rewrite Hbd. reflexivity.
  - destruct (badge_lookup _define_badges badge_id) as [bd|] eqn:Hbd; [|done].
    rewrite bool_decide_true; [done|].
    unfold earned_ids. rewrite elem_of_list_to_set.
    destruct (decide (badge_id ∈ Badge.id <$> badges progress)) as [|Hn]; [done|].
    exfalso. apply Hdec. split; [|done].
    apply badge_lookup_key. by eexists.
Qed.

End AwardFacts.

(** ** Properties of the mutating calls *)

Section CallProperties.
Context `{PyRuntime}.

(** What [add_analysis_record] returns, whatever the call did: the
    experience of the score, no level and no badge. *)
Lemma add_analysis_record_returns uid sid score ang scores w :
  (add_analysis_record uid sid score ang scores w).1 =
    {| exp_gained := _calculate_experience_points score;
       new_level := None; new_badges := [] |}.
Proof.
  destruct (add_analysis_record_run uid sid score ang scores w)
    as (k & record & t_last & lb & added & E & _).
  cbv zeta in E. by rewrite E.
Qed.

(** The aggregate of [uid] after [add_analysis_record]. *)
Lemma add_analysis_record_stored uid sid score ang scores w :
  exists record t_last level extra,
    let base := base_progress w uid (now (clock_reads w)) in
    progress_data (add_analysis_record uid sid score ang scores w).2
      = <[uid := recorded base record t_last level extra]> (progress_data w)
    /\ AnalysisRecord.overall_score record = score
    /\ current_level base <= level.
Proof.
  destruct (add_analysis_record_run uid sid score ang scores w)
    as (k & record & t_last & lb & added & E & _ & Hs & _ & _ & Hl & _).
  cbv zeta in E, Hl. rewrite E. simpl.
  eexists record, t_last, _, (lb ++ added). by split.
Qed.

(** C7. [award_badge] answers false and changes nothing (no aggregate, not
    the file, not even a clock reading) when the user is unknown, when the
    id is not in the catalogue, and when the user already holds the badge;
    it answers true only for a known user and a catalogue badge not yet
    held, which is then appended to the user's badges and saved. *)
Theorem award_badge_refusals (uid badge_id : string) (w : World) :
  let unknown_user := progress_data w !! uid = None in
  let unknown_badge := badge_lookup _define_badges badge_id = None in
  let already_held :=
    exists progress, progress_data w !! uid = Some progress
                     /\ badge_id ∈ (Badge.id <$> badges progress) in
  ((unknown_user \/ unknown_badge \/ already_held) ->
     award_badge uid badge_id w = (false, w))
  /\ ((award_badge uid badge_id w).1 = true ->
        exists progress b,
          progress_data w !! uid = Some progress
          /\ is_Some (badge_lookup _define_badges badge_id)
          /\ (badge_id ∉ Badge.id <$> badges progress)
          /\ Badge.id b = badge_id
          /\ progress_data (award_badge uid badge_id w).2
               = <[uid := award_more progress [b]]> (progress_data w)
          /\ disk (award_badge uid badge_id w).2
               = Some (save_document (progress_data (award_badge uid badge_id w).2))).
Proof.
  cbv zeta. pose proof (award_badge_run uid badge_id w) as Hrun.
  destruct (progress_data w !! uid) as [progress|] eqn:Hget.
  - case_bool_decide as Hdec.
    + destruct Hdec as [Hcat Hheld]. destruct Hrun as (b & Hb & E). split.
      * intros [?|[Hnone|(p & [= <-] & Hin)]]; [done| |done].
        apply badge_lookup_key in Hcat as [? ?]. congruence.
      * intros _. exists progress, b. rewrite E. simpl.
        split; [done|]. split; [by apply badge_lookup_key|]. done.
    + split; [by intros _|]. rewrite Hrun. done.
  - split; [by intros _|]. rewrite Hrun. done.
Qed.

(** C9. The experience of any float score, out of range or NaN, lies
    between 10 and 30, and [add_analysis_record] adds exactly that much to
    the user's [experience_points] (counted from 0 for a user the call
    creates): the points grow by at least 10 and at most 30. *)
Theorem experience_gain_bounds (uid sid : string) (score : float) (ang : string)
    (scores : option (gmap string float)) (w : World) :
  let before := from_option experience_points 0 (progress_data w !! uid) in
  let outcome := add_analysis_record uid sid score ang scores w in
  10 <= _calculate_experience_points score <= 30
  /\ exp_gained outcome.1 = _calculate_experience_points score
  /\ exists progress,
       progress_data outcome.2 !! uid = Some progress
       /\ experience_points progress = before + exp_gained outcome.1
       /\ before + 10 <= experience_points progress <= before + 30.
Proof.
  cbv zeta. pose proof (experience_range score) as Hrange.
  split; [done|]. rewrite add_analysis_record_returns. simpl. split; [done|].
  destruct (add_analysis_record_stored uid sid score ang scores w)
    as (record & t_last & level & extra & Hstore & Hscore & _).
  cbv zeta in Hstore. rewrite Hstore, lookup_insert_eq.
  eexists. split; [done|]. simpl. rewrite Hscore.
  assert (experience_points (base_progress w uid (now (clock_reads w)))
          = from_option experience_points 0 (progress_data w !! uid)) as ->.
  { unfold base_progress. by destruct (progress_data w !! uid). }
  lia.
Qed.

(** A call never lowers the level of a user the store knows. *)
Lemma perform_level (c : call) (w : World) (uid : string) (progress : UserProgress) :
  progress_data w !! uid = Some progress ->
  exists progress',
    progress_data (perform w c) !! uid = Some progress'
    /\ current_level progress <= current_level progress'.
Proof.
  intros Hget. destruct c as [s|uid' badge_id]; simpl.
  - unfold submit.
    destruct (add_analysis_record_stored (sub_user s) (sub_session s) (sub_score s)
                (sub_angle s) (sub_scores s) w)
      as (record & t_last & level & extra & Hstore & _ & Hlevel).
    cbv zeta in Hstore, Hlevel. rewrite Hstore.
    destruct (decide (sub_user s = uid)) as [Heq|Hne].
    + rewrite Heq in *. rewrite lookup_insert_eq. eexists. split; [done|]. simpl.
      unfold base_progress in Hlevel. by rewrite Hget in Hlevel.
    + rewrite lookup_insert_ne by done. exists progress. split; [done|lia].
  - pose proof (award_badge_run uid' badge_id w) as Hrun.
    destruct (progress_data w !! uid') as [p|] eqn:Hget'.
    + case_bool_decide.
      * destruct Hrun as (b & _ & ->). simpl.
        destruct (decide (uid' = uid)) as [->|Hne].
        -- rewrite lookup_insert_eq. eexists. split; [done|]. simpl.
           assert (p = progress) as -> by congruence. lia.
        -- rewrite lookup_insert_ne by done. exists progress. split; [done|lia].
      * rewrite Hrun. exists progress. split; [done|lia].
    + rewrite Hrun. exists progress. split; [done|lia].
Qed.

(** C2. Across any sequence of calls, and whatever scores they carry, the
    [current_level] of a user is never lower after the sequence than
    before it; since the sequence and the starting state are arbitrary,
    the level after each call is at least the level before that call. *)
Theorem current_level_non_decreasing (calls : list call) (w : World)
    (uid : string) (progress : UserProgress) :
  progress_data w !! uid = Some progress ->
  exists progress',
    progress_data (perform_all calls w) !! uid = Some progress'
    /\ current_level progress <= current_level progress'.
Proof.
  revert w progress. unfold perform_all.
  induction calls as [|c calls IH]; intros w progress Hget; simpl.
  - exists progress. split; [done|lia].
  - destruct (perform_level c w uid progress Hget) as (p1 & Hget1 & Hle1).
    destruct (IH _ _ Hget1) as (p2 & Hget2 & Hle2).
    exists p2. split; [done|lia].
Qed.

End CallProperties.

(** ** Badge ids are unique *)

Lemma str_of_int_inj (m n : Z) : str_of_int m = str_of_int n -> m = n.
Proof.
  unfold str_of_int. intros E.
  assert (Hnn : forall z, Z.to_int z <> Decimal.Pos Decimal.Nil
                          /\ Z.to_int z <> Decimal.Neg Decimal.Nil).
  { intros [|q|q]; simpl; split; try discriminate;
      intros [= Hq]; by apply DecimalPos.Unsigned.to_uint_nonnil in Hq. }
  apply DecimalZ.to_int_inj.
  destruct (Hnn m) as [Hm1 Hm2], (Hnn n) as [Hn1 Hn2].
  pose proof (NilZero.isi _ Hm1 Hm2) as Em.
  pose proof (NilZero.isi _ Hn1 Hn2) as En.
  rewrite E in Em. congruence.
Qed.

Lemma level_badge_id_inj (m n : Z) :
  "level_" +:+ str_of_int m = "level_" +:+ str_of_int n -> m = n.
Proof. simpl. intros [= E]. by apply str_of_int_inj. Qed.

(** The ids an aggregate holds are pairwise distinct, and it holds no
    level badge above its level. *)
Definition badges_ok (progress : UserProgress) : Prop :=
  NoDup (Badge.id <$> badges progress)
  /\ forall z, current_level progress < z ->
       "level_" +:+ str_of_int z ∉ Badge.id <$> badges progress.

Definition store_ok (w : World) : Prop :=
  forall uid progress, progress_data w !! uid = Some progress -> badges_ok progress.

Lemma count_id_elem badge_id xs :
  (1 <= count_id badge_id xs)%nat <-> badge_id ∈ Badge.id <$> xs.
Proof.
  destruct (decide (badge_id ∈ Badge.id <$> xs)) as [Hin|Hnin].
  - split; [done|]. intros _.
    destruct (count_id badge_id xs) eqn:E; [|lia].
    by apply count_id_zero in E.
  - split; [|done]. apply count_id_zero in Hnin. lia.
Qed.

Section Uniqueness.
Context `{PyRuntime}.

(** The badges of [uid] after a submission: those of the base aggregate,
    then at most one level badge, then catalogue badges that were not
    held, each at most once. *)
Lemma add_analysis_record_badges uid sid score ang scores w :
  exists final level_badges added,
    let base := base_progress w uid (now (clock_reads w)) in
    progress_data (add_analysis_record uid sid score ang scores w).2
      = <[uid := final]> (progress_data w)
    /\ badges final = badges base ++ level_badges ++ added
    /\ current_level base <= current_level final
    /\ (level_badges = []
        \/ exists b, level_badges = [b]
             /\ Badge.id b = "level_" +:+ str_of_int (current_level final)
             /\ current_level base < current_level final)
    /\ NoDup (Badge.id <$> added)
    /\ (forall x, x ∈ Badge.id <$> added ->
          x ∈ _define_badges.*1
          /\ (x ∉ Badge.id <$> badges base)
          /\ (x ∉ Badge.id <$> level_badges))
    /\ Forall (fun b => exists badge_def progress' w',
                  (Badge.id b, badge_def) ∈ _define_badges
                  /\ (_check_badge_condition progress' (condition badge_def) w').1 = true)
         added.
Proof.
  destruct (add_analysis_record_run uid sid score ang scores w)
    as (k & record & t_last & lb & added & E & _ & _ & _ & _ & Hge & Hlb & Hsub & Hcond & _).
  cbv zeta in *. rewrite E. cbn [snd progress_data].
  eexists _, lb, added. split; [reflexivity|].
  cbn [recorded badges current_level].
  split; [done|]. split; [done|]. split.
  { destruct Hlb as [[-> _]|(b & -> & Hb & Hlt)]; [by left|right; by exists b]. }
  split.
  { eapply sublist_NoDup; [|exact Hsub].
    apply NoDup_filter, badge_keys_NoDup. }
  split; [|done].
  intros x Hx. eapply elem_of_sublist in Hx; [|exact Hsub].
  apply list_elem_of_filter in Hx as [Hnot Hkey].
  rewrite elem_of_list_to_set, fmap_app, elem_of_app in Hnot.
  split; [done|]. split; intros ?; apply Hnot; [by left|by right].
Qed.

Lemma perform_store_ok (c : call) (w : World) : store_ok w -> store_ok (perform w c).
Proof.
  intros Hok uid progress. destruct c as [s|uid' badge_id]; simpl.
  - unfold submit.
    destruct (add_analysis_record_badges (sub_user s) (sub_session s) (sub_score s)
                (sub_angle s) (sub_scores s) w)
      as (final & lb & added & Hstore & Hbadges & Hge & Hlb & Hnd & Hadded & _).
    cbv zeta in *. rewrite Hstore.
    destruct (decide (sub_user s = uid)) as [Heq|Hne];
      [|rewrite lookup_insert_ne by done; apply Hok].
    rewrite Heq in *. rewrite lookup_insert_eq. intros [= <-].
    set (base := base_progress w uid (now (clock_reads w))) in *.
    assert (Hbase : badges_ok base).
    { subst base. unfold base_progress.
      destruct (progress_data w !! uid) as [p|] eqn:Hget; simpl; [by eapply Hok|].
      split; [constructor|]. intros z _. apply not_elem_of_nil. }
    destruct Hbase as [Hbnd Hblevel].
    assert (Hlb_fresh : forall x, x ∈ Badge.id <$> lb ->
              (x ∉ Badge.id <$> badges base)
              /\ x = "level_" +:+ str_of_int (current_level final)).
    { intros x Hx. destruct Hlb as [->|(b & -> & Hb & Hlt)].
      - by apply elem_of_nil in Hx.
      - apply list_elem_of_singleton in Hx. subst x. rewrite Hb.
        split; [by apply Hblevel|done]. }
    split.
    + rewrite Hbadges, !fmap_app. apply NoDup_app. split; [done|]. split.
      * intros x Hx [Hl|Ha]%elem_of_app.
        -- by destruct (Hlb_fresh x Hl).
        -- by destruct (Hadded x Ha) as (_ & ? & _).
      * apply NoDup_app. split; [|split; [|done]].
        -- destruct Hlb as [->|(b & -> & _)]; [constructor|apply NoDup_singleton].
        -- intros x Hx Ha. by destruct (Hadded x Ha) as (_ & _ & ?).
    + intros z Hz. rewrite Hbadges, !fmap_app, !elem_of_app.
      intros [Hb|[Hl|Ha]].
      * eapply Hblevel; [|exact Hb]. lia.
      * destruct (Hlb_fresh _ Hl) as [_ E]. apply level_badge_id_inj in E. lia.
      * destruct (Hadded _ Ha) as (Hcat & _). by apply level_badge_not_in_catalogue in Hcat.
  - pose proof (award_badge_run uid' badge_id w) as Hrun.
    destruct (progress_data w !! uid') as [p|] eqn:Hget'; [|rewrite Hrun; apply Hok].
    case_bool_decide as Hdec; [|rewrite Hrun; apply Hok].
    destruct Hdec as [Hcat Hnew]. destruct Hrun as (b & Hb & ->). cbn [snd progress_data].
    destruct (decide (uid' = uid)) as [Heq|Hne];
      [|rewrite lookup_insert_ne by done; apply Hok].
    rewrite Heq in *. rewrite lookup_insert_eq. intros [= <-].
    destruct (Hok _ _ Hget') as [Hnd Hlevel].
    split; cbn [award_more badges current_level].
    + rewrite fmap_app. apply NoDup_app. split; [done|]. split.
      * intros x Hx Hx'. apply list_elem_of_singleton in Hx'. simpl in Hx'. congruence.
      * apply NoDup_singleton.
    + intros z Hz. rewrite fmap_app, elem_of_app. intros [Hin|Hin].
      * by eapply Hlevel.
      * apply list_elem_of_singleton in Hin. simpl in Hin.
        apply (level_badge_not_in_catalogue z). congruence.
Qed.

Lemma perform_all_store_ok (calls : list call) (w : World) :
  store_ok w -> store_ok (perform_all calls w).
Proof.
  revert w. unfold perform_all.
  induction calls as [|c calls IH]; intros w Hok; simpl; [done|].
  apply IH. by apply perform_store_ok.
Qed.

Lemma init_None_store_ok : store_ok (init None).
Proof. intros uid progress. simpl. by rewrite lookup_empty. Qed.

End Uniqueness.

Lemma elem_of_badge_lookup defs badge_id badge_def :
  NoDup defs.*1 -> (badge_id, badge_def) ∈ defs ->
  badge_lookup defs badge_id = Some badge_def.
Proof.
  unfold badge_lookup.
  induction defs as [|[k d] rest IH]; intros Hnd Hin; [by apply elem_of_nil in Hin|].
  simpl in Hnd. apply NoDup_cons in Hnd as [Hk Hnd].
  apply elem_of_cons in Hin as [[= <- <-]|Hin].
  - by rewrite String.eqb_refl.
  - destruct (String.eqb_spec k badge_id) as [->|Hne]; [|by apply IH].
    exfalso. apply Hk. apply list_elem_of_fmap. by exists (badge_id, badge_def).
Qed.

Lemma catalogue_ids_not_level_shaped :
  Forall (fun k => String.prefix "level_" k = false) _define_badges.*1.
Proof. apply (bool_decide_unpack _). by vm_compute. Qed.

Lemma held_count_base `{PyRuntime} w uid t badge_id :
  count_id badge_id (badges (base_progress w uid t)) = held_count w uid badge_id.
Proof. unfold held_count, base_progress. by destruct (progress_data w !! uid). Qed.

Section Idempotence.
Context `{PyRuntime}.

(** One call keeps at most one badge of an id that is not level-shaped. *)
Lemma perform_held_count (c : call) (w : World) (uid badge_id : string) :
  String.prefix "level_" badge_id = false ->
  (held_count w uid badge_id <= 1)%nat ->
  (held_count (perform w c) uid badge_id <= 1)%nat.
Proof.
  intros Hshape Hle. destruct c as [s|uid' bid]; simpl.
  - unfold submit.
    destruct (add_analysis_record_badges (sub_user s) (sub_session s) (sub_score s)
                (sub_angle s) (sub_scores s) w)
      as (final & lb & added & Hstore & Hbadges & _ & Hlb & Hnd & Hadded & _).
    cbv zeta in *. unfold held_count at 1. rewrite Hstore.
    destruct (decide (sub_user s = uid)) as [Heq|Hne];
      [|by rewrite lookup_insert_ne by done].
    rewrite Heq in *. rewrite lookup_insert_eq. simpl.
    rewrite Hbadges, !count_id_app, held_count_base.
    assert (count_id badge_id lb = 0)%nat as ->.
    { apply count_id_zero. destruct Hlb as [->|(b & -> & Hb & _)].
      - apply not_elem_of_nil.
      - intros Hin%list_elem_of_singleton. rewrite Hin, Hb, prefix_app in Hshape.
        discriminate. }
    pose proof (count_id_NoDup badge_id added Hnd) as Hadd.
    destruct (decide (badge_id ∈ Badge.id <$> added)) as [Hin|Hnin].
    + destruct (Hadded _ Hin) as (_ & Hnew & _).
      rewrite <- held_count_base with (t := now (clock_reads w)).
      apply count_id_zero in Hnew. lia.
    + apply count_id_zero in Hnin. lia.
  - pose proof (award_badge_run uid' bid w) as Hrun.
    destruct (progress_data w !! uid') as [p|] eqn:Hget'; [|by rewrite Hrun].
    case_bool_decide as Hdec; [|by rewrite Hrun].
    destruct Hdec as [Hcat Hnew]. destruct Hrun as (b & Hb & ->).
    unfold held_count at 1. cbn [snd progress_data].
    destruct (decide (uid' = uid)) as [Heq|Hne];
      [|by rewrite lookup_insert_ne by done].
    rewrite Heq in *. rewrite lookup_insert_eq. simpl.
    unfold held_count in Hle. rewrite Hget' in Hle. simpl in Hle.
    rewrite count_id_app.
    destruct (decide (bid = badge_id)) as [->|Hneq].
    + apply count_id_zero in Hnew. rewrite Hnew.
      unfold count_id. simpl. rewrite filter_cons, filter_nil. case_decide; simpl; lia.
    + assert (count_id badge_id [b] = 0)%nat as ->; [|lia].
      apply count_id_zero. intros Hin%list_elem_of_singleton. congruence.
Qed.

(** C3. No sequence of submissions and manual awards gives a user two
    badges with the same id: from any state, for every id that is not
    level-shaped, which includes every catalogue id; and, for every id at
    all, in a ledger grown from the empty store.  A manual award of an id
    the user already holds answers false and changes nothing. *)
Theorem badge_award_idempotent :
  (forall (calls : list call) (w : World) (uid badge_id : string),
     String.prefix "level_" badge_id = false ->
     (held_count w uid badge_id <= 1)%nat ->
     (held_count (perform_all calls w) uid badge_id <= 1)%nat)
  /\ Forall (fun badge_id => String.prefix "level_" badge_id = false) _define_badges.*1
  /\ (forall (calls : list call) (uid badge_id : string),
        (held_count (perform_all calls (init None)) uid badge_id <= 1)%nat)
  /\ (forall (w : World) (uid badge_id : string),
        (1 <= held_count w uid badge_id)%nat ->
        award_badge uid badge_id w = (false, w)).
Proof.
  split; [|split; [exact catalogue_ids_not_level_shaped|split]].
  - intros calls. unfold perform_all.
    induction calls as [|c calls IH]; intros w uid badge_id Hshape Hle; simpl; [done|].
    apply IH; [done|]. by apply perform_held_count.
  - intros calls uid badge_id.
    pose proof (perform_all_store_ok calls (init None) init_None_store_ok) as Hok.
    unfold held_count.
    destruct (progress_data (perform_all calls (init None)) !! uid) as [p|] eqn:Hget;
      simpl; [|lia].
    apply count_id_NoDup. by destruct (Hok _ _ Hget).
  - intros w uid badge_id Hheld.
    pose proof (award_badge_run uid badge_id w) as Hrun.
    unfold held_count in Hheld.
    destruct (progress_data w !! uid) as [p|]; simpl in Hheld; [|done].
    apply count_id_elem in Hheld.
    rewrite bool_decide_false in Hrun; [done|]. by intros [_ ?].
Qed.

(** The condition string of [improvement_champion] matches no branch of
    [_check_badge_condition]. *)
Lemma all_categories_condition_false progress w :
  (_check_badge_condition progress "all_categories_above_80" w).1 = false.
Proof. reflexivity. Qed.

(** A submission awards no [improvement_champion]. *)
Lemma submit_no_improvement_champion (s : Submission) (w : World) (uid : string) :
  held_count (perform w (Submit s)) uid "improvement_champion"
  = held_count w uid "improvement_champion".
Proof.
  simpl. unfold submit.
  destruct (add_analysis_record_badges (sub_user s) (sub_session s) (sub_score s)
              (sub_angle s) (sub_scores s) w)
    as (final & lb & added & Hstore & Hbadges & _ & Hlb & _ & _ & Hcond).
  cbv zeta in *. unfold held_count at 1. rewrite Hstore.
  destruct (decide (sub_user s = uid)) as [Heq|Hne];
    [|by rewrite lookup_insert_ne by done].
  rewrite Heq in *. rewrite lookup_insert_eq. simpl.
  rewrite Hbadges, !count_id_app, held_count_base.
  assert (count_id "improvement_champion" lb = 0)%nat as ->.
  { apply count_id_zero. destruct Hlb as [->|(b & -> & Hb & _)].
    - apply not_elem_of_nil.
    - intros Hin%list_elem_of_singleton. by rewrite Hb in Hin. }
  assert (count_id "improvement_champion" added = 0)%nat as ->; [|lia].
  apply count_id_zero. intros (b & Hb & Hin)%list_elem_of_fmap.
  rewrite Forall_forall in Hcond.
  destruct (Hcond b Hin) as (bd & p' & w' & Hmem & Htrue).
  rewrite <- Hb in Hmem.
  apply (elem_of_badge_lookup _ _ _ badge_keys_NoDup) in Hmem.
  vm_compute in Hmem. injection Hmem as <-.
  by rewrite all_categories_condition_false in Htrue.
Qed.

(** C8. The [all_categories_above_80] condition evaluates to false on
    every aggregate; it is the condition of the auto-awardable catalogue
    badge [improvement_champion], so no sequence of submissions changes
    how many [improvement_champion] badges a user holds: the evaluator
    never awards it. *)
Theorem improvement_champion_never_auto_awarded :
  (forall (progress : UserProgress) (w : World),
     (_check_badge_condition progress "all_categories_above_80" w).1 = false)
  /\ (condition <$> badge_lookup _define_badges "improvement_champion")
       = Some "all_categories_above_80"
  /\ (auto_award <$> badge_lookup _define_badges "improvement_champion") = Some true
  /\ (forall (submissions : list Submission) (w : World) (uid : string),
        held_count (perform_all (Submit <$> submissions) w) uid "improvement_champion"
        = held_count w uid "improvement_champion").
Proof.
  split; [exact all_categories_condition_false|].
  split; [reflexivity|]. split; [reflexivity|].
  intros submissions. unfold perform_all.
  induction submissions as [|s rest IH]; intros w uid; simpl; [done|].
  rewrite IH. apply submit_no_improvement_champion.
Qed.

End Idempotence.

(** ** A reference runtime

    One concrete runtime, to run the model on concrete ledgers: a clock
    that starts at 2024-01-01T12:00:00 and advances by one second at each
    reading, the ISO 8601 text of a timestamp as [datetime.isoformat]
    writes it, its reader, and rounding to one decimal, to nearest with
    ties to even on the exact binary value. *)

Module Reference.

(** Days from 0001-01-01 to a civil date of the proleptic Gregorian
    calendar, and back; years are counted from 1 March in eras of 400. *)
Definition days_of_civil (y m d : Z) : Z :=
  let y' := if m <=? 2 then y - 1 else y in
  let era := y' / 400 in
  let yoe := y' - era * 400 in
  let mp := if 2 <? m then m - 3 else m + 9 in
  let doy := (153 * mp + 2) / 5 + d - 1 in
  let doe := yoe * 365 + yoe / 4 - yoe / 100 + doy in
  era * 146097 + doe - 306.

Definition civil_of_days (days : Z) : Z * Z * Z :=
  let z := days + 306 in
  let era := z / 146097 in
  let doe := z - era * 146097 in
  let yoe := (doe - doe / 1460 + doe / 36524 - doe / 146096) / 365 in
  let doy := doe - (365 * yoe + yoe / 4 - yoe / 100) in
  let mp := (5 * doy + 2) / 153 in
  let d := doy - (153 * mp + 2) / 5 + 1 in
  let m := if mp <? 10 then mp + 3 else mp - 9 in
  let y := yoe + era * 400 in
  (if m <=? 2 then y + 1 else y, m, d).

(** [n] in decimal on [width] digits, zero-padded. *)
Fixpoint padded (width : nat) (n : Z) : string :=
  match width with
  | O => EmptyString
  | S k => padded k (n / 10)
           +:+ String (Ascii.ascii_of_nat (48 + Z.to_nat (n mod 10))) EmptyString
  end.

Definition day_us : Z := 86400000000.

Definition isoformat (t : Z) : string :=
  let '(y, m, d) := civil_of_days (t / day_us) in
  let rest := t mod day_us in
  let seconds := rest / 1000000 in
  let micro := rest mod 1000000 in
  padded 4 y +:+ "-" +:+ padded 2 m +:+ "-" +:+ padded 2 d +:+ "T"
  +:+ padded 2 (seconds / 3600) +:+ ":" +:+ padded 2 (seconds / 60 mod 60)
  +:+ ":" +:+ padded 2 (seconds mod 60)
  +:+ (if micro =? 0 then EmptyString else "." +:+ padded 6 micro).

(** The value of a string of decimal digits. *)
Fixpoint digits_value (s : string) (acc : Z) : option Z :=
  match s with
  | EmptyString => Some acc
  | String c rest =>
      let n := Z.of_nat (Ascii.nat_of_ascii c) in
      if (48 <=? n) && (n <=? 57) then digits_value rest (10 * acc + (n - 48))
      else None
  end.

Definition field (s : string) (start len : nat) : option Z :=
  let text := String.substring start len s in
  if (String.length text =? len)%nat then digits_value text 0 else None.

Definition char_is (s : string) (i : nat) (c : Ascii.ascii) : bool :=
  match String.get i s with
  | Some c' => Ascii.eqb c c'
  | None => false
  end.

(** The characters ["-"], [":"] and ["."]. *)
Definition dash : Ascii.ascii := Ascii.ascii_of_nat 45.
Definition colon : Ascii.ascii := Ascii.ascii_of_nat 58.
Definition dot : Ascii.ascii := Ascii.ascii_of_nat 46.

(** Reads the two layouts [isoformat] writes, with any separator between
    date and time; any other text is a [ValueError]. *)
Definition fromisoformat (s : string) : option Z :=
  let n := String.length s in
  if negb ((n =? 19)%nat || (n =? 26)%nat) then None
  else if negb (char_is s 4 dash && char_is s 7 dash && char_is s 13 colon
                && char_is s 16 colon) then None
  else
    y ← field s 0 4; m ← field s 5 2; d ← field s 8 2;
    hh ← field s 11 2; mm ← field s 14 2; ss ← field s 17 2;
    micro ← (if (n =? 26)%nat
             then if char_is s 19 dot then field s 20 6 else None
             else Some 0);
    let days := days_of_civil y m d in
    if (1 <=? y) && (hh <? 24) && (mm <? 60) && (ss <? 60)
       && bool_decide (civil_of_days days = (y, m, d))
    then Some (days * day_us + ((hh * 60 + mm) * 60 + ss) * 1000000 + micro)
    else None.

(** The nearest integer to [num / den], ties to even, for [0 < den]. *)
Definition round_half_even (num den : Z) : Z :=
  let q := num / den in
  let r := num mod den in
  if 2 * r <? den then q
  else if den <? 2 * r then q + 1
  else if Z.even q then q else q + 1.

(** [round(x, 1)] on a float: the decimal with one fractional digit
    nearest to the exact value of [x], read back as a float. *)
Definition round1 (x : float) : float :=
  match FloatOps.Prim2SF x with
  | SpecFloat.S754_finite negative m e =>
      if 0 <=? e then x
      else
        let tenths := round_half_even (10 * Z.pos m) (2 ^ (- e)) in
        if 2 ^ 53 <=? tenths then x
        else
          let magnitude := (of_uint63 (Uint63.of_Z tenths) / 10)%float in
          if negative then (- magnitude)%float else magnitude
  | _ => x
  end.

(** The instant of the k-th clock reading. *)
Definition now (k : nat) : Z :=
  days_of_civil 2024 1 1 * day_us + 12 * 3600000000 + Z.of_nat k * 1000000.

End Reference.

#[global] Instance reference_runtime : PyRuntime :=
  {| now := Reference.now;
     isoformat := Reference.isoformat;
     fromisoformat := Reference.fromisoformat;
     round1 := Reference.round1 |}.

(** ** Properties of the progress queries *)

Lemma last_default {A} (l : list A) (d : A) :
  l <> [] -> last l = Some (List.last l d).
Proof.
  induction l as [|x [|y l] IH]; intros Hne; [done|done|].
  change (last (y :: l) = Some (List.last (y :: l) d)). by apply IH.
Qed.

Section QueryProperties.
Context `{PyRuntime}.

Lemma get_user_progress_known uid progress w :
  progress_data w !! uid = Some progress ->
  exists snapshot,
    (get_user_progress uid w).1 = Some snapshot
    /\ Snapshot.score_history snapshot = _get_score_history progress
    /\ Snapshot.improvement_trends snapshot
         = (_analyze_improvement_trends progress w).1.
Proof.
  intros Hget. unfold get_user_progress, mbind, M_bind, get_progress.
  rewrite Hget.
  destruct (_analyze_improvement_trends progress w) as [trends w'].
  eexists. split; [reflexivity|]. by split.
Qed.

(** C10. For a known user, [score_history] of the snapshot lists the last
    ten analysis records, oldest first, and all of them when there are at
    most ten: the records split into the older ones, which are left out,
    and the [min (length records) 10] most recent, which the history
    shows one for one with their date text, score, angle and session. *)
Theorem score_history_last_ten (uid : string) (progress : UserProgress) (w : World) :
  progress_data w !! uid = Some progress ->
  exists snapshot older recent,
    (get_user_progress uid w).1 = Some snapshot
    /\ analysis_records progress = older ++ recent
    /\ length recent = Nat.min (length (analysis_records progress)) 10
    /\ Forall2
         (fun entry record =>
            ScoreEntry.date entry = isoformat (AnalysisRecord.date record)
            /\ ScoreEntry.overall_score entry = AnalysisRecord.overall_score record
            /\ ScoreEntry.angle entry = AnalysisRecord.angle record
            /\ ScoreEntry.session_id entry = AnalysisRecord.session_id record)
         (Snapshot.score_history snapshot) recent.
Proof.
  intros Hget.
  destruct (get_user_progress_known uid progress w Hget) as (snapshot & E & Hh & _).
  set (records := analysis_records progress) in *.
  exists snapshot, (take (length records - 10) records),
         (drop (length records - 10) records).
  split; [done|]. split; [by rewrite take_drop|]. split.
  - rewrite length_drop. lia.
  - rewrite Hh. unfold _get_score_history, last_n. fold records.
    apply Forall2_fmap_l, Forall_Forall2_diag, Forall_forall. by intros r _.
Qed.

Lemma trend_of_scores_two (first second : float) (rest : list float) :
  trend_of_scores (first :: second :: rest) =
    let final := List.last (first :: second :: rest) first in
    (if (first <? final)%float then "improving"
     else if (PrimFloat.abs (final - first) <? 5)%float then "stable"
     else "declining",
     if (0 <? first)%float then NFloat ((final - first) / first * 100)%float
     else NInt 0).
Proof. reflexivity. Qed.

(** The report of [_analyze_improvement_trends] when there is enough
    data. *)
Lemma analyze_improvement_trends_run (progress : UserProgress) (w : World) :
  let month_ago := now (clock_reads w) - timedelta_days 30 in
  let scores :=
    AnalysisRecord.overall_score
      <$> filter (fun r => month_ago ≤ AnalysisRecord.date r) (analysis_records progress) in
  (3 <= length (analysis_records progress))%nat ->
  (2 <= length scores)%nat ->
  (_analyze_improvement_trends progress w).1 =
    Some {| TrendReport.trend := (trend_of_scores scores).1;
            TrendReport.change_rate := py_round1 (trend_of_scores scores).2;
            TrendReport.description :=
              _get_trend_description (trend_of_scores scores).1
                (trend_of_scores scores).2 |}.
Proof.
  cbv zeta. intros H3 H2. unfold _analyze_improvement_trends.
  destruct (Nat.ltb_spec (length (analysis_records progress)) 3) as [?|_]; [lia|].
  unfold mbind, M_bind. rewrite datetime_now_run.
  rewrite length_fmap in H2.
  destruct (Nat.ltb_spec
              (length (filter (fun r => now (clock_reads w) - timedelta_days 30
                                         ≤ AnalysisRecord.date r)
                         (analysis_records progress))) 2) as [?|_]; [lia|].
  by destruct (trend_of_scores _).
Qed.

(** C6, as amended.  With at least 3 records and at least 2 in the
    trailing 30 days, the report compares the first and the last score of
    that window: the trend is improving iff last > first, otherwise stable
    iff |last - first| < 5, otherwise declining; the change rate is
    (last - first) / first * 100 rounded to one decimal when first > 0,
    and the integer 0 whenever first > 0 does not hold (zero, negative or
    NaN). *)
Theorem trend_classification (progress : UserProgress) (w : World) :
  let month_ago := now (clock_reads w) - timedelta_days 30 in
  let scores :=
    AnalysisRecord.overall_score
      <$> filter (fun r => month_ago ≤ AnalysisRecord.date r) (analysis_records progress) in
  (3 <= length (analysis_records progress))%nat ->
  (2 <= length scores)%nat ->
  exists first final report,
    head scores = Some first
    /\ last scores = Some final
    /\ (_analyze_improvement_trends progress w).1 = Some report
    /\ (TrendReport.trend report = "improving" <-> (first <? final)%float = true)
    /\ (TrendReport.trend report = "stable" <->
          (first <? final)%float = false
          /\ (PrimFloat.abs (final - first) <? 5)%float = true)
    /\ (TrendReport.trend report = "declining" <->
          (first <? final)%float = false
          /\ (PrimFloat.abs (final - first) <? 5)%float = false)
    /\ TrendReport.change_rate report =
         if (0 <? first)%float
         then NFloat (round1 ((final - first) / first * 100)%float)
         else NInt 0.
Proof.
  cbv zeta. intros H3 H2.
  rewrite (analyze_improvement_trends_run progress w H3 H2).
  destruct (AnalysisRecord.overall_score <$> _) as [|first [|second rest]] eqn:Hs;
    simpl in H2; try lia.
  rewrite trend_of_scores_two.
  set (scores := first :: second :: rest).
  set (final := List.last scores first).
  exists first, final.
  eexists. split; [done|]. split; [by apply last_default|].
  split; [reflexivity|]. cbn [TrendReport.trend TrendReport.change_rate fst snd].
  split; [|split; [|split]].
  - destruct (first <? final)%float; [done|].
    destruct (PrimFloat.abs (final - first) <? 5)%float; split; discriminate.
  - destruct (first <? final)%float;
      [split; [discriminate|intros [? _]; discriminate]|].
    destruct (PrimFloat.abs (final - first) <? 5)%float; [done|].
    split; [discriminate|intros [_ ?]; discriminate].
  - destruct (first <? final)%float;
      [split; [discriminate|intros [? _]; discriminate]|].
    destruct (PrimFloat.abs (final - first) <? 5)%float; [|done].
    split; [discriminate|intros [_ ?]; discriminate].
  - by destruct (0 <? first)%float.
Qed.

End QueryProperties.

(** ** Saving and loading *)

(** What a record and an aggregate come back as: [to_dict] writes an
    absent [category_scores] as the empty object. *)
Definition reloaded_record (record : AnalysisRecord.t) : AnalysisRecord.t :=
  {| AnalysisRecord.session_id := AnalysisRecord.session_id record;
     AnalysisRecord.date := AnalysisRecord.date record;
     AnalysisRecord.overall_score := AnalysisRecord.overall_score record;
     AnalysisRecord.angle := AnalysisRecord.angle record;
     AnalysisRecord.category_scores :=
       Some (default ∅ (AnalysisRecord.category_scores record)) |}.

Definition reloaded (progress : UserProgress) : UserProgress :=
  {| user_id := user_id progress;
     total_analyses := total_analyses progress;
     current_level := current_level progress;
     experience_points := experience_points progress;
     analysis_records := reloaded_record <$> analysis_records progress;
     badges := badges progress;
     created_date := created_date progress;
     last_analysis_date := last_analysis_date progress |}.

(** Every timestamp an aggregate holds. *)
Definition timestamps (progress : UserProgress) : list Z :=
  created_date progress
  :: option_list (last_analysis_date progress)
  ++ (AnalysisRecord.date <$> analysis_records progress)
  ++ (Badge.earned_date <$> badges progress).

(** The runtime reads [t] back from its ISO text, which is not empty. *)
Definition reads_back `{PyRuntime} (t : Z) : Prop :=
  isoformat t <> EmptyString /\ fromisoformat (isoformat t) = Some t.

Lemma mapM_fmap_Some {A B C} (f : B -> option C) (g : A -> B) (h : A -> C)
    (l : list A) :
  Forall (fun x => f (g x) = Some (h x)) l -> mapM f (g <$> l) = Some (h <$> l).
Proof.
  intros Hall. apply mapM_Some.
  apply Forall2_fmap_l, Forall2_fmap_r, Forall_Forall2_diag.
  eapply Forall_impl; [exact Hall|]. done.
Qed.

Lemma foldl_insert_fmap {A B} (f : A -> B) (l : list (string * A)) :
  NoDup l.*1 -> forall acc : gmap string B,
  foldl (fun a kv => <[kv.1 := f kv.2]> a) acc l
  = list_to_map (prod_map id f <$> l) ∪ acc.
Proof.
  induction l as [|[k v] l IH]; intros Hnd acc.
  - simpl. by rewrite (left_id_L ∅ (∪)).
  - rewrite fmap_cons in Hnd. apply NoDup_cons in Hnd as [Hk Hnd].
    cbn [foldl fst snd]. rewrite IH by done.
    rewrite fmap_cons. cbn [prod_map fst snd list_to_map foldr uncurry].
    rewrite <- insert_union_l. symmetry. apply insert_union_r.
    apply not_elem_of_list_to_map. rewrite <- list_fmap_compose.
    by rewrite (list_fmap_ext (fst ∘ prod_map id f) fst l).
Qed.

Lemma scores_as_floats (scores : gmap string float) :
  exists l : list (string * float),
    map_to_list (JFloat <$> scores) = prod_map id JFloat <$> l.
Proof.
  assert (Hall : Forall (fun kv : string * json => exists x, kv.2 = JFloat x)
                   (map_to_list (JFloat <$> scores))).
  { apply Forall_forall. intros [k v] Hin%elem_of_map_to_list.
    rewrite lookup_fmap in Hin. destruct (scores !! k) as [x|]; [|done].
    injection Hin as <-. by exists x. }
  induction Hall as [|[k v] l [x Hx] _ [l' IH]]; [by exists []|].
  simpl in Hx. subst v. exists ((k, x) :: l'). simpl. by rewrite IH.
Qed.

Section RoundTrip.
Context `{PyRuntime}.

Lemma load_scores_to_dict (scores : gmap string float) :
  load_scores (JObj (map_to_list (JFloat <$> scores))) = Some (Some scores).
Proof.
  unfold load_scores.
  destruct (scores_as_floats scores) as [l Hl]. rewrite Hl.
  rewrite (mapM_fmap_Some _ _ (fun kv => kv) l); last first.
  { apply Forall_forall. by intros [k x] _. }
  simpl. rewrite list_fmap_id. do 2 f_equal.
  assert (Hmap : JFloat <$> (list_to_map l : gmap string float) = JFloat <$> scores).
  { by rewrite <- list_to_map_fmap, <- Hl, list_to_map_to_list. }
  apply map_eq. intros k.
  assert (Hk : (JFloat <$> (list_to_map l : gmap string float)) !! k
               = (JFloat <$> scores) !! k) by by rewrite Hmap.
  rewrite !lookup_fmap in Hk.
  destruct (list_to_map l !! k), (scores !! k); simpl in Hk; congruence.
Qed.

Lemma load_datetime_isoformat (t : Z) :
  reads_back t -> load_datetime (JStr (isoformat t)) = Some t.
Proof. by intros [_ E]. Qed.

Lemma load_record_to_dict (record : AnalysisRecord.t) :
  reads_back (AnalysisRecord.date record) ->
  load_record (AnalysisRecord.to_dict record) = Some (reloaded_record record).
Proof.
  intros Hdate. unfold load_record, AnalysisRecord.to_dict.
  destruct Hdate as [_ Hdate].
  cbn -[map_to_list load_scores]. rewrite Hdate. cbn -[map_to_list load_scores].
  case_guard as Hkeys; [|by exfalso; apply Hkeys; vm_compute].
  cbn -[map_to_list load_scores]. by rewrite load_scores_to_dict.
Qed.

Lemma load_badge_to_dict (badge : Badge.t) :
  reads_back (Badge.earned_date badge) ->
  load_badge (Badge.to_dict badge) = Some badge.
Proof.
  intros [_ Hdate]. unfold load_badge, Badge.to_dict.
  cbn. rewrite Hdate. cbn.
  case_guard as Hkeys; [|by exfalso; apply Hkeys; vm_compute].
  by destruct badge.
Qed.

Lemma load_user_user_dict (progress : UserProgress) :
  Forall reads_back (timestamps progress) ->
  load_user (user_dict progress) = Some (reloaded progress).
Proof.
  unfold timestamps. rewrite Forall_cons, !Forall_app, !Forall_fmap.
  intros (Hcreated & Hlast & Hrecords & Hbadges).
  assert (Hrs : mapM load_record (AnalysisRecord.to_dict <$> analysis_records progress)
                = Some (reloaded_record <$> analysis_records progress)).
  { apply mapM_fmap_Some. eapply Forall_impl; [exact Hrecords|].
    intros r Hr. by apply load_record_to_dict. }
  assert (Hbs : mapM load_badge (Badge.to_dict <$> badges progress)
                = Some (badges progress)).
  { rewrite <- (list_fmap_id (badges progress)) at 2.
    apply mapM_fmap_Some. eapply Forall_impl; [exact Hbadges|].
    intros b Hb. by apply load_badge_to_dict. }
  unfold load_user, user_dict, reloaded.
  cbn -[load_datetime mapM load_record load_badge].
  rewrite (load_datetime_isoformat _ Hcreated), Hrs, Hbs.
  destruct (last_analysis_date progress) as [d|] eqn:Hd; simpl in Hlast.
  - assert (Hd' : reads_back d) by by inversion Hlast.
    destruct Hd' as [Hne Hback].
    destruct (isoformat d) as [|c text] eqn:Htext; [done|].
    cbn -[load_datetime mapM load_record load_badge].
    unfold load_datetime. cbn. rewrite Hback. cbn.
    case_guard as Hkeys; [|by exfalso; apply Hkeys; vm_compute].
    reflexivity.
  - cbn.
    case_guard as Hkeys; [|by exfalso; apply Hkeys; vm_compute].
    reflexivity.
Qed.

(** Loading what [save_document] wrote. *)
Lemma load_document_save_document (data : gmap string UserProgress) :
  map_Forall (fun _ progress => Forall reads_back (timestamps progress)) data ->
  load_document (save_document data) = Some (reloaded <$> data).
Proof.
  intros Hall. unfold load_document, save_document.
  assert (Hfold : forall (l : list (string * UserProgress))
                         (acc : gmap string UserProgress),
            Forall (fun kv => Forall reads_back (timestamps kv.2)) l ->
            foldl (fun (progress_dict : option (gmap string UserProgress))
                       (member : string * json) =>
                     d ← progress_dict;
                     progress ← load_user member.2;
                     Some (<[member.1 := progress]> d))
              (Some acc) (prod_map id user_dict <$> l)
            = Some (foldl (fun a kv => <[kv.1 := reloaded kv.2]> a) acc l)).
  { induction l as [|[k p] l IH]; intros acc Hl; [done|].
    apply Forall_cons in Hl as [Hp Hl]. simpl in Hp.
    cbn [fmap list_fmap foldl prod_map fst snd mbind option_bind id].
    rewrite (load_user_user_dict p Hp). cbn [mbind option_bind]. by apply IH. }
  rewrite Hfold; last first.
  { apply Forall_forall. intros [k p] Hin%elem_of_map_to_list. by eapply Hall. }
  f_equal. rewrite foldl_insert_fmap by apply NoDup_fst_map_to_list.
  rewrite (right_id_L ∅ (∪)). by rewrite list_to_map_fmap, list_to_map_to_list.
Qed.

(** C5, as amended.  When the runtime reads back the ISO text of every
    timestamp in the store, loading what [_save_data] wrote gives every
    aggregate back field for field, records and badges included, except
    that a record whose [category_scores] is [None] comes back with the
    empty mapping; a store whose records all carry a mapping comes back
    identical. *)
Theorem save_load_round_trip (w : World) :
  map_Forall (fun _ progress => Forall reads_back (timestamps progress))
    (progress_data w) ->
  _load_data (disk (_save_data w).2) = reloaded <$> progress_data w
  /\ (map_Forall
        (fun _ progress =>
           Forall (fun r => is_Some (AnalysisRecord.category_scores r))
             (analysis_records progress))
        (progress_data w) ->
      _load_data (disk (_save_data w).2) = progress_data w).
Proof.
  intros Hall. cbn [_save_data snd disk _load_data].
  rewrite (load_document_save_document _ Hall). cbn [default id].
  split; [done|]. intros Hscores.
  rewrite <- (map_fmap_id (progress_data w)) at 2.
  apply map_fmap_ext. intros uid progress Hget.
  specialize (Hscores uid progress Hget). simpl in Hscores.
  destruct progress as [u t l e records bs c la]. unfold reloaded. simpl in *.
  f_equal. rewrite <- (list_fmap_id records) at 2.
  apply Forall_fmap_ext. eapply Forall_impl; [exact Hscores|].
  intros [s d o a cs] [x Hx]. simpl in Hx. subst cs. reflexivity.
Qed.

End RoundTrip.

(** ** Concrete ledgers

    Run on the reference runtime.  [alice] has four well-scored analyses
    of the last four days and is one short of level 2; [bob] has three
    analyses sent without category scores, the first with a negative
    score; [carol] has three, the first scored 0 and the last NaN;
    [dave] has twelve. *)

Definition days_ago (n : Z) : Z := Reference.now 0 - timedelta_days n.

Definition first_analysis_badge (t : Z) : Badge.t :=
  {| Badge.id := "first_analysis"; Badge.name := "初回解析";
     Badge.description := "初めての動画解析を完了";
     Badge.earned_date := t; Badge.icon := "🎾" |}.

Definition scored (sid : string) (t : Z) (score : float)
    (scores : option (gmap string float)) : AnalysisRecord.t :=
  {| AnalysisRecord.session_id := sid; AnalysisRecord.date := t;
     AnalysisRecord.overall_score := score; AnalysisRecord.angle := "front";
     AnalysisRecord.category_scores := scores |}.

Definition stance_only (x : float) : option (gmap string float) :=
  Some {[ "stance" := x ]}.

Definition alice : UserProgress :=
  {| user_id := "alice"; total_analyses := 4; current_level := 1;
     experience_points := 120;
     analysis_records :=
       [ scored "a1" (days_ago 4) 95 (stance_only 80);
         scored "a2" (days_ago 3) 96 (stance_only 82);
         scored "a3" (days_ago 2) 97 (stance_only 84);
         scored "a4" (days_ago 1) 98 (stance_only 86) ];
     badges := [first_analysis_badge (days_ago 4)];
     created_date := days_ago 4;
     last_analysis_date := Some (days_ago 1) |}.

Definition bob : UserProgress :=
  {| user_id := "bob"; total_analyses := 3; current_level := 1;
     experience_points := 30;
     analysis_records :=
       [ scored "b1" (days_ago 3) (-10) None;
         scored "b2" (days_ago 2) 20 None;
         scored "b3" (days_ago 1) 30 None ];
     badges := [first_analysis_badge (days_ago 3)];
     created_date := days_ago 3;
     last_analysis_date := Some (days_ago 1) |}.

Definition carol : UserProgress :=
  {| user_id := "carol"; total_analyses := 3; current_level := 1;
     experience_points := 30;
     analysis_records :=
       [ scored "c1" (days_ago 3) 0 None;
         scored "c2" (days_ago 2) 20 None;
         scored "c3" (days_ago 1) nan None ];
     badges := [first_analysis_badge (days_ago 3)];
     created_date := days_ago 3;
     last_analysis_date := Some (days_ago 1) |}.

Definition dave : UserProgress :=
  {| user_id := "dave"; total_analyses := 12; current_level := 2;
     experience_points := 120;
     analysis_records :=
       (fun k : nat => scored (str_of_int (Z.of_nat k)) (days_ago (40 - Z.of_nat k)) 50 None)
       <$> seq 1 12;
     badges := [first_analysis_badge (days_ago 39)];
     created_date := days_ago 39;
     last_analysis_date := Some (days_ago 28) |}.

Definition ledger : World :=
  {| progress_data :=
       {[ "alice" := alice; "bob" := bob; "carol" := carol; "dave" := dave ]};
     disk := None; clock_reads := 0 |}.

(** A ledger of [alice] alone, whose records all carry category scores. *)
Definition alice_ledger : World :=
  {| progress_data := {[ "alice" := alice ]}; disk := None; clock_reads := 0 |}.

(** A ledger of [bob] alone. *)
Definition bob_ledger : World :=
  {| progress_data := {[ "bob" := bob ]}; disk := None; clock_reads := 0 |}.

(** ** The claims on the concrete ledgers *)

(** C1 at a failing input.  The fifth submission of [alice], scored 95,
    raises her from level 1 to level 2 and earns her three badges, yet the
    returned dict reports no new level and no new badge. *)
Lemma add_analysis_record_level_up_unreported :
  let outcome := add_analysis_record "alice" "a5" 95 "front" None ledger in
  (current_level <$> progress_data ledger !! "alice") = Some 1
  /\ (current_level <$> progress_data outcome.2 !! "alice") = Some 2
  /\ ((fun p => Badge.id <$> badges p) <$> progress_data ledger !! "alice")
       = Some ["first_analysis"]
  /\ ((fun p => Badge.id <$> badges p) <$> progress_data outcome.2 !! "alice")
       = Some ["first_analysis"; "level_2"; "consistent_week"; "perfectionist"]
  /\ outcome.1 = {| exp_gained := 30; new_level := None; new_badges := [] |}.
Proof. vm_compute. repeat split; reflexivity. Qed.

Definition alice_fifth : call :=
  Submit {| sub_user := "alice"; sub_session := "a5"; sub_score := 95;
            sub_angle := "front"; sub_scores := None |}.

(** C2 on [ledger]: the submission that takes [alice] to level 2, then a
    manual award. *)
Lemma current_level_non_decreasing_witness :
  exists progress',
    progress_data (perform_all [alice_fifth; Award "alice" "stance_master"] ledger)
      !! "alice" = Some progress'
    /\ current_level alice <= current_level progress'.
Proof.
  apply (current_level_non_decreasing
           [alice_fifth; Award "alice" "stance_master"] ledger "alice" alice).
  vm_compute. reflexivity.
Defined.

(** C10 on [ledger]: [dave] has twelve records, the history shows ten. *)
Lemma score_history_last_ten_witness :
  exists snapshot older recent,
    (get_user_progress "dave" ledger).1 = Some snapshot
    /\ analysis_records dave = older ++ recent
    /\ length recent = Nat.min (length (analysis_records dave)) 10
    /\ Forall2
         (fun entry record =>
            ScoreEntry.date entry = isoformat (AnalysisRecord.date record)
            /\ ScoreEntry.overall_score entry = AnalysisRecord.overall_score record
            /\ ScoreEntry.angle entry = AnalysisRecord.angle record
            /\ ScoreEntry.session_id entry = AnalysisRecord.session_id record)
         (Snapshot.score_history snapshot) recent.
Proof.
  apply (score_history_last_ten "dave" dave ledger).
  vm_compute. reflexivity.
Defined.

(** C6, as amended, on [ledger]: the four scores of [alice], all in the
    window. *)
Lemma trend_classification_witness :
  let month_ago := now (clock_reads ledger) - timedelta_days 30 in
  let scores :=
    AnalysisRecord.overall_score
      <$> filter (fun r => month_ago ≤ AnalysisRecord.date r) (analysis_records alice) in
  exists first final report,
    head scores = Some first
    /\ last scores = Some final
    /\ (_analyze_improvement_trends alice ledger).1 = Some report
    /\ (TrendReport.trend report = "improving" <-> (first <? final)%float = true)
    /\ (TrendReport.trend report = "stable" <->
          (first <? final)%float = false
          /\ (PrimFloat.abs (final - first) <? 5)%float = true)
    /\ (TrendReport.trend report = "declining" <->
          (first <? final)%float = false
          /\ (PrimFloat.abs (final - first) <? 5)%float = false)
    /\ TrendReport.change_rate report =
         if (0 <? first)%float
         then NFloat (round1 ((final - first) / first * 100)%float)
         else NInt 0.
Proof.
  apply (trend_classification alice ledger).
  - vm_compute. lia.
  - vm_compute. lia.
Defined.

(** The claim's words for the trend: improving iff last > first,
    declining iff first - last >= 5, stable otherwise. *)
Definition specified_trend (first final : float) : string :=
  if (first <? final)%float then "improving"
  else if (5 <=? first - final)%float then "declining"
  else "stable".

(** The claim's words for the change rate: (last - first) / first * 100,
    and 0 only when first == 0. *)
Definition specified_change_rate (first final : float) : float :=
  if (first =? 0)%float then 0%float else ((final - first) / first * 100)%float.

(** [float(n)] for a small [int]. *)
Definition float_of_int (n : Z) : float :=
  if n <? 0 then (- of_uint63 (Uint63.of_Z (- n)))%float
  else of_uint63 (Uint63.of_Z n).

Definition number_value (x : number) : float :=
  match x with
  | NInt n => float_of_int n
  | NFloat f => f
  end.

(** The report for [progress] is the one the claim describes. *)
Definition reported_as_specified `{PyRuntime} (progress : UserProgress) (w : World)
    : Prop :=
  let month_ago := now (clock_reads w) - timedelta_days 30 in
  let scores :=
    AnalysisRecord.overall_score
      <$> filter (fun r => month_ago ≤ AnalysisRecord.date r) (analysis_records progress) in
  exists first final report,
    head scores = Some first
    /\ last scores = Some final
    /\ (_analyze_improvement_trends progress w).1 = Some report
    /\ TrendReport.trend report = specified_trend first final
    /\ (number_value (TrendReport.change_rate report)
        =? specified_change_rate first final)%float = true.

(** C6 fails on the code.  For [bob], whose window runs from -10 to 30,
    the claim asks for the rate -400 and the code reports 0; for [carol],
    from 0 to NaN, the claim's rule says stable and the code says
    declining. *)
Lemma trend_claim_counterexample :
  ~ reported_as_specified bob ledger /\ ~ reported_as_specified carol ledger.
Proof.
  split; intros (first & final & report & Hfirst & Hlast & Hreport & Htrend & Hrate).
  - vm_compute in Hfirst, Hlast, Hreport.
    injection Hfirst as <-. injection Hlast as <-. injection Hreport as <-.
    vm_compute in Hrate. discriminate.
  - vm_compute in Hfirst, Hlast, Hreport.
    injection Hfirst as <-. injection Hlast as <-. injection Hreport as <-.
    vm_compute in Htrend. discriminate.
Qed.

(** C5, as amended, on the ledger of [alice]. *)
Lemma save_load_round_trip_witness :
  _load_data (disk (_save_data alice_ledger).2) = reloaded <$> progress_data alice_ledger
  /\ (map_Forall
        (fun _ progress =>
           Forall (fun r => is_Some (AnalysisRecord.category_scores r))
             (analysis_records progress))
        (progress_data alice_ledger) ->
      _load_data (disk (_save_data alice_ledger).2) = progress_data alice_ledger).
Proof.
  apply (save_load_round_trip alice_ledger).
  apply map_Forall_singleton.
  repeat constructor; vm_compute; congruence.
Defined.

(** C5 fails on the code.  [bob]'s records were stored without category
    scores; saving and loading his ledger does not give it back. *)
Lemma save_load_counterexample :
  _load_data (disk (_save_data bob_ledger).2) <> progress_data bob_ledger.
Proof.
  intros E. apply (f_equal (fun data => data !! "bob")) in E.
  vm_compute in E. discriminate.
Qed.

(** ** Further properties of the ledger *)

Section FurtherProperties.
Context `{PyRuntime}.

(** With fewer than 3 records, or fewer than 2 records in the trailing 30
    days, the trend analysis answers the empty dict. *)
Theorem trend_insufficient_data (progress : UserProgress) (w : World) :
  ((length (analysis_records progress) < 3)%nat ->
     (_analyze_improvement_trends progress w).1 = None)
  /\ (Nat.lt
         (length (filter (fun r => now (clock_reads w) - timedelta_days 30
                                   ≤ AnalysisRecord.date r)
                   (analysis_records progress))) 2 ->
        (_analyze_improvement_trends progress w).1 = None).
Proof.
  unfold _analyze_improvement_trends. split; intros Hlt.
  - by destruct (Nat.ltb_spec (length (analysis_records progress)) 3); [|lia].
  - destruct (Nat.ltb_spec (length (analysis_records progress)) 3); [done|].
    unfold mbind, M_bind. rewrite datetime_now_run.
    by destruct (Nat.ltb_spec
                   (length (filter (fun r => now (clock_reads w) - timedelta_days 30
                                              ≤ AnalysisRecord.date r)
                              (analysis_records progress))) 2); [|lia].
Qed.

Lemma level_scan_app t1 t2 progress start :
  level_scan (t1 ++ t2) progress start
  = level_scan t2 progress (level_scan t1 progress start).
Proof. unfold level_scan. apply fold_left_app. Qed.

(** A user created by a submission starts at level 1 with no points and
    no analyses; an aggregate with at least 100 points and 5 analyses is
    found to be at level 2 or above. *)
Theorem level_two_threshold :
  (forall (uid : string) (w : World),
     let fresh := (new_user uid w).1 in
     current_level fresh = 1 /\ experience_points fresh = 0
     /\ total_analyses fresh = 0)
  /\ (forall progress : UserProgress,
        100 <= experience_points progress ->
        5 <= total_analyses progress ->
        2 <= _check_level_up progress).
Proof.
  split; [by intros uid w|]. intros progress Hpoints Hcount.
  unfold _check_level_up.
  change _define_level_requirements
    with (take 2 _define_level_requirements ++ drop 2 _define_level_requirements).
  rewrite level_scan_app. etrans; [|apply level_scan_ge].
  unfold level_scan. cbn [take drop fold_left _define_level_requirements
                          min_points min_analyses].
  assert ((100 <=? experience_points progress) && (5 <=? total_analyses progress)
          = true) as ->.
  { apply andb_true_intro. split; apply Z.leb_le; lia. }
  lia.
Qed.

(** [total_analyses] counts the records. *)
Definition counted (progress : UserProgress) : Prop :=
  total_analyses progress = Z.of_nat (length (analysis_records progress)).

Lemma perform_counted (c : call) (w : World) :
  map_Forall (fun _ => counted) (progress_data w) ->
  map_Forall (fun _ => counted) (progress_data (perform w c)).
Proof.
  intros Hall. destruct c as [s|uid badge_id]; simpl.
  - unfold submit.
    destruct (add_analysis_record_stored (sub_user s) (sub_session s) (sub_score s)
                (sub_angle s) (sub_scores s) w)
      as (record & t_last & level & extra & Hstore & _ & _).
    cbv zeta in Hstore. rewrite Hstore. apply map_Forall_insert_2; [|done].
    unfold counted, recorded, base_progress. cbn [total_analyses analysis_records].
    rewrite length_app. simpl.
    destruct (progress_data w !! sub_user s) as [p|] eqn:Hget; simpl.
    + specialize (Hall _ _ Hget). unfold counted in Hall. lia.
    + lia.
  - pose proof (award_badge_run uid badge_id w) as Hrun.
    destruct (progress_data w !! uid) as [p|] eqn:Hget; [|by rewrite Hrun].
    case_bool_decide; [|by rewrite Hrun].
    destruct Hrun as (b & _ & ->). cbn [snd progress_data].
    apply map_Forall_insert_2; [|done]. by apply (Hall _ _ Hget).
Qed.

(** In a ledger grown from the empty store by submissions and manual
    awards, [total_analyses] of every user equals the number of the
    user's analysis records. *)
Theorem total_analyses_counts_records (calls : list call) :
  map_Forall (fun _ progress =>
                total_analyses progress
                = Z.of_nat (length (analysis_records progress)))
    (progress_data (perform_all calls (init None))).
Proof.
  assert (Hgen : forall w, map_Forall (fun _ => counted) (progress_data w) ->
                 map_Forall (fun _ => counted) (progress_data (perform_all calls w))).
  { unfold perform_all. induction calls as [|c calls IH]; intros w Hw; [done|].
    simpl. apply IH. by apply perform_counted. }
  apply Hgen. simpl. apply map_Forall_empty.
Qed.

End FurtherProperties.

Lemma level_two_threshold_witness :
  2 <= _check_level_up
         {| user_id := "alice"; total_analyses := 5; current_level := 1;
            experience_points := 150; analysis_records := []; badges := [];
            created_date := 0; last_analysis_date := None |}.
Proof.
  apply (proj2 level_two_threshold); vm_compute; congruence.
Defined.

Section FirstAnalysis.
Context `{PyRuntime}.

Lemma define_badges_first :
  _define_badges
  = ("first_analysis",
      {| def_name := "初回解析"; def_description := "初めての動画解析を完了";
         def_icon := "🎾"; auto_award := true;
         condition := "analysis_count >= 1" |}) :: tail _define_badges.
Proof. reflexivity. Qed.

Lemma check_analysis_count (progress : UserProgress) (w : World) :
  _check_badge_condition progress "analysis_count >= 1" w
  = (1 <=? total_analyses progress, w).
Proof. reflexivity. Qed.

Lemma first_analysis_in_catalogue :
  is_Some (badge_lookup _define_badges "first_analysis").
Proof. by eexists. Qed.

(** The loop awards the entry it starts with when that entry is
    auto-awardable, not held and satisfied. *)
Lemma auto_badge_loop_awards_head earned badge_id badge_def rest progress w :
  auto_award badge_def = true ->
  badge_id ∉ earned ->
  is_Some (badge_lookup _define_badges badge_id) ->
  (_check_badge_condition progress (condition badge_def) w).1 = true ->
  badge_id
    ∈ Badge.id <$> badges (auto_badge_loop earned ((badge_id, badge_def) :: rest)
                             progress w).1.
Proof.
  intros Hauto Hnew Hcat Hcond.
  cbn [auto_badge_loop]. rewrite Hauto. cbn [negb].
  rewrite bool_decide_false by done.
  unfold mbind at 1, M_bind at 1.
  destruct (_check_badge_condition progress (condition badge_def) w) as [ok w1].
  cbn [fst] in Hcond. subst ok.
  unfold mbind, M_bind.
  destruct (award_badge_internal_run progress badge_id w1)
    as (k & added1 & -> & Hid & _ & Hone).
  specialize (Hone Hcat).
  destruct added1 as [|b [|]]; try discriminate Hone.
  assert (Hb : Badge.id b = badge_id) by by inversion Hid.
  destruct (auto_badge_loop_run rest earned (award_more progress [b]) (advance k w1))
    as (k' & added & -> & _). cbn [fst award_more badges].
  rewrite !fmap_app, !elem_of_app. left. right.
  apply list_elem_of_singleton. by rewrite Hb.
Qed.

(** The evaluator leaves an aggregate with at least one analysis holding
    [first_analysis], the first entry of the catalogue. *)
Lemma check_auto_badges_first_analysis (progress : UserProgress) (w : World) :
  1 <= total_analyses progress ->
  "first_analysis" ∈ Badge.id <$> badges (_check_auto_badges progress w).1.
Proof.
  intros Hcount. unfold _check_auto_badges.
  destruct (decide ("first_analysis" ∈ earned_ids progress)) as [Hheld|Hnew].
  - destruct (auto_badge_loop_run _define_badges (earned_ids progress) progress w)
      as (k & added & -> & _). cbn [fst award_more badges].
    rewrite fmap_app, elem_of_app. left.
    unfold earned_ids in Hheld. by apply elem_of_list_to_set in Hheld.
  - rewrite define_badges_first.
    apply auto_badge_loop_awards_head;
      [reflexivity|done|exact first_analysis_in_catalogue|].
    cbn [condition]. rewrite check_analysis_count. cbn [fst].
    apply Z.leb_le. lia.
Qed.

(** After [add_analysis_record] the user holds the [first_analysis]
    badge, whenever the count of analyses before the call was not
    negative: in particular after the first call for a user. *)
Theorem first_analysis_badge_awarded (uid sid : string) (score : float)
    (ang : string) (scores : option (gmap string float)) (w : World) :
  0 <= from_option total_analyses 0 (progress_data w !! uid) ->
  exists progress,
    progress_data (add_analysis_record uid sid score ang scores w).2 !! uid
      = Some progress
    /\ "first_analysis" ∈ Badge.id <$> badges progress.
Proof.
  intros Hcount.
  destruct (add_analysis_record_run uid sid score ang scores w)
    as (k & record & t_last & lb & added & E & _ & _ & _ & _ & _ & _ & _ & _ & w1 & Hfinal).
  cbv zeta in E, Hfinal. rewrite E. cbn [snd progress_data].
  rewrite lookup_insert_eq. eexists. split; [reflexivity|].
  rewrite Hfinal. apply check_auto_badges_first_analysis.
  cbn [recorded total_analyses]. unfold base_progress.
  destruct (progress_data w !! uid); simpl in *; lia.
Qed.

End FirstAnalysis.

(** On [ledger], for the first submission of a user it does not know. *)
Lemma first_analysis_badge_awarded_witness :
  exists progress,
    progress_data (add_analysis_record "erin" "e1" 40 "side" None ledger).2 !! "erin"
      = Some progress
    /\ "first_analysis" ∈ Badge.id <$> badges progress.
Proof.
  apply (first_analysis_badge_awarded "erin" "e1" 40 "side" None ledger).
  vm_compute. congruence.
Defined.

(** ** The level engine on the whole table *)

(** The thresholds of a row are met by an aggregate: the test of
    [_check_level_up]. *)
Definition meets (requirements : LevelRequirement) (progress : UserProgress) : bool :=
  (min_points requirements <=? experience_points progress)
  && (min_analyses requirements <=? total_analyses progress).

(** What the scan returns: at least the start, either the start or the
    level of a row that is met, and no less than any row that is met. *)
Lemma level_scan_spec table progress : forall start,
  let result := level_scan table progress start in
  start <= result
  /\ (result = start
      \/ exists requirements,
           (result, requirements) ∈ table /\ meets requirements progress = true)
  /\ (forall level requirements,
        (level, requirements) ∈ table -> meets requirements progress = true ->
        level <= result).
Proof.
  induction table as [|[level req] rest IH]; intros start; cbv zeta.
  - split; [done|]. split; [by left|]. by intros ? ? ?%elem_of_nil.
  - unfold level_scan. cbn [fold_left].
    fold (meets req progress).
    set (next := if meets req progress then Z.max start level else start).
    change (fold_left _ rest next) with (level_scan rest progress next).
    destruct (IH next) as (Hge & Hor & Hall). cbv zeta in *.
    assert (Hnext : start <= next) by (subst next; case_match; lia).
    split; [lia|]. split.
    + destruct Hor as [Heq|(r & Hin & Hm)].
      * rewrite Heq. subst next. destruct (meets req progress) eqn:Hmeets; [|by left].
        destruct (Z.max_spec start level) as [[_ ->]|[_ ->]]; [|by left].
        right. exists req. split; [apply list_elem_of_here|done].
      * right. exists r. split; [by apply list_elem_of_further|done].
    + intros l r [[= -> ->]|Hin]%elem_of_cons Hm.
      * assert (level <= next) by (subst next; rewrite Hm; lia). lia.
      * by eapply Hall.
Qed.

(** [_check_level_up] never lowers the level; when it raises it, the new
    level is a row of the table whose thresholds the aggregate meets; and
    no row that is met lies above its answer. *)
Theorem check_level_up_justified (progress : UserProgress) :
  current_level progress <= _check_level_up progress
  /\ (current_level progress < _check_level_up progress ->
      exists requirements,
        (_check_level_up progress, requirements) ∈ _define_level_requirements
        /\ min_points requirements <= experience_points progress
        /\ min_analyses requirements <= total_analyses progress)
  /\ (forall level requirements,
        (level, requirements) ∈ _define_level_requirements ->
        min_points requirements <= experience_points progress ->
        min_analyses requirements <= total_analyses progress ->
        level <= _check_level_up progress).
Proof.
  unfold _check_level_up.
  destruct (level_scan_spec _define_level_requirements progress (current_level progress))
    as (Hge & Hor & Hall). cbv zeta in *.
  split; [done|]. split.
  - intros Hlt. destruct Hor as [Heq|(r & Hin & Hm)]; [lia|].
    exists r. unfold meets in Hm. apply andb_prop in Hm as [?%Z.leb_le ?%Z.leb_le].
    done.
  - intros level r Hin Hp Ha. eapply Hall; [done|].
    unfold meets. apply andb_true_intro. split; by apply Z.leb_le.
Qed.

(** ** Invariants of a ledger grown from the empty store *)

(** The aggregate that [add_analysis_record] creates for a user id the
    store does not hold. *)
Definition fresh_progress (uid : string) (t : Z) : UserProgress :=
  {| user_id := uid; total_analyses := 0; current_level := 1;
     experience_points := 0; analysis_records := []; badges := [];
     created_date := t; last_analysis_date := None |}.

(** Every analysis brought between 10 and 30 points. *)
Definition experience_bounded (progress : UserProgress) : Prop :=
  10 * total_analyses progress <= experience_points progress
  /\ experience_points progress <= 30 * total_analyses progress.

(** The level is a row of the table whose thresholds are met, and no row
    that is met lies above it. *)
Definition level_settled (progress : UserProgress) : Prop :=
  (exists requirements,
     (current_level progress, requirements) ∈ _define_level_requirements
     /\ meets requirements progress = true)
  /\ forall level requirements,
       (level, requirements) ∈ _define_level_requirements ->
       meets requirements progress = true ->
       level <= current_level progress.

(** The level badges held are those of the levels 2 to the current one. *)
Definition level_badges_exact (progress : UserProgress) : Prop :=
  forall z, "level_" +:+ str_of_int z ∈ Badge.id <$> badges progress
            <-> 2 <= z <= current_level progress.

Definition settled (progress : UserProgress) : Prop :=
  experience_bounded progress /\ level_settled progress /\ level_badges_exact progress.

(** Each row above the first has the row of the level below it in the
    table, at least 30 points and at least one analysis lower. *)
Lemma level_table_steps :
  Forall (fun row : Z * LevelRequirement =>
            row.1 = 1
            \/ Exists (fun below : Z * LevelRequirement =>
                         below.1 = row.1 - 1
                         /\ min_points below.2 + 30 <= min_points row.2
                         /\ min_analyses below.2 + 1 <= min_analyses row.2)
                 _define_level_requirements)
    _define_level_requirements.
Proof. apply (bool_decide_unpack _). by vm_compute. Qed.

Lemma level_table_range :
  Forall (fun row : Z * LevelRequirement => 1 <= row.1 <= 7) _define_level_requirements.
Proof. apply (bool_decide_unpack _). by vm_compute. Qed.

Lemma meets_le requirements progress progress' :
  experience_points progress <= experience_points progress' ->
  total_analyses progress <= total_analyses progress' ->
  meets requirements progress = true -> meets requirements progress' = true.
Proof.
  unfold meets. intros Hp Ha [?%Z.leb_le ?%Z.leb_le]%andb_prop.
  apply andb_true_intro. split; apply Z.leb_le; lia.
Qed.

Section LedgerInvariants.
Context `{PyRuntime}.

(** A property of aggregates that fresh aggregates have, that appending
    a catalogue badge keeps and that recording a submission keeps, holds
    after every call. *)
Lemma perform_invariant (P : UserProgress -> Prop) :
  (forall uid t, P (fresh_progress uid t)) ->
  (forall progress b,
     P progress -> Badge.id b ∈ _define_badges.*1 ->
     (Badge.id b ∉ Badge.id <$> badges progress) ->
     P (award_more progress [b])) ->
  (forall base record t_last level_badges added,
     let level := _check_level_up (recorded base record t_last (current_level base) []) in
     P base ->
     (level_badges = [] /\ level = current_level base
      \/ exists b, level_badges = [b]
           /\ Badge.id b = "level_" +:+ str_of_int level
           /\ current_level base < level) ->
     (forall x, x ∈ Badge.id <$> added -> x ∈ _define_badges.*1) ->
     P (recorded base record t_last level (level_badges ++ added))) ->
  forall c w,
    map_Forall (fun _ => P) (progress_data w) ->
    map_Forall (fun _ => P) (progress_data (perform w c)).
Proof.
  intros Hfresh Haward Hrecord c w Hall. destruct c as [s|uid badge_id]; simpl.
  - unfold submit.
    destruct (add_analysis_record_run (sub_user s) (sub_session s) (sub_score s)
                (sub_angle s) (sub_scores s) w)
      as (k & record & t_last & lb & added & E & _ & _ & _ & _ & _ & Hlb & Hsub & _).
    cbv zeta in *. rewrite E. cbn [snd progress_data].
    apply map_Forall_insert_2; [|done].
    apply Hrecord; [|done|].
    + unfold base_progress.
      destruct (progress_data w !! sub_user s) as [p|] eqn:Hget; simpl.
      * by apply (Hall _ _ Hget).
      * apply Hfresh.
    + intros x Hx. eapply elem_of_sublist in Hx; [|exact Hsub].
      by apply list_elem_of_filter in Hx as [_ ?].
  - pose proof (award_badge_run uid badge_id w) as Hrun.
    destruct (progress_data w !! uid) as [p|] eqn:Hget; [|by rewrite Hrun].
    case_bool_decide as Hdec; [|by rewrite Hrun].
    destruct Hdec as [Hcat Hnew]. destruct Hrun as (b & Hb & ->). cbn [snd progress_data].
    apply map_Forall_insert_2; [|done].
    apply Haward; [by apply (Hall _ _ Hget)|by rewrite Hb|by rewrite Hb].
Qed.

Lemma perform_all_invariant (P : UserProgress -> Prop) :
  (forall c w,
     map_Forall (fun _ => P) (progress_data w) ->
     map_Forall (fun _ => P) (progress_data (perform w c))) ->
  forall calls w,
    map_Forall (fun _ => P) (progress_data w) ->
    map_Forall (fun _ => P) (progress_data (perform_all calls w)).
Proof.
  intros Hstep calls. unfold perform_all.
  induction calls as [|c calls IH]; intros w Hw; [done|].
  simpl. apply IH. by apply Hstep.
Qed.

Lemma fresh_settled uid t : settled (fresh_progress uid t).
Proof.
  split; [|split].
  - unfold experience_bounded. simpl. lia.
  - split.
    + eexists. split; [apply list_elem_of_here|done].
    + intros level req Hin Hm.
      assert (Hall : Forall (fun row : Z * LevelRequirement =>
                               meets row.2 (fresh_progress uid t) = true -> row.1 <= 1)
                       _define_level_requirements).
      { unfold meets. simpl. repeat constructor; simpl; try done; lia. }
      rewrite Forall_forall in Hall. by apply (Hall _ Hin).
  - intros z. simpl. split; [by intros ?%elem_of_nil|lia].
Qed.

Lemma award_more_settled progress b :
  settled progress -> Badge.id b ∈ _define_badges.*1 ->
  settled (award_more progress [b]).
Proof.
  intros (Hexp & Hlevel & Hbadges) Hcat. split; [done|]. split; [done|].
  intros z. cbn [award_more badges current_level].
  rewrite fmap_app, elem_of_app, <- (Hbadges z). split; [|by left].
  intros [?|Hin]; [done|]. apply list_elem_of_singleton in Hin. simpl in Hin.
  exfalso. apply (level_badge_not_in_catalogue z). congruence.
Qed.

(** Recording a submission on a settled aggregate raises the level by at
    most one. *)
Lemma recorded_level_step base record t_last :
  settled base ->
  _check_level_up (recorded base record t_last (current_level base) [])
  <= current_level base + 1.
Proof.
  intros (Hexp & [(req0 & Hrow & _) Hmax] & _).
  pose proof level_table_range as Hrange. rewrite Forall_forall in Hrange.
  apply Hrange in Hrow. simpl in Hrow.
  set (p1 := recorded base record t_last (current_level base) []).
  destruct (level_scan_spec _define_level_requirements p1 (current_level p1))
    as (_ & Hor & _). cbv zeta in Hor. fold (_check_level_up p1) in Hor.
  destruct Hor as [->|(req & Hin & Hm)]; [simpl; lia|].
  pose proof level_table_steps as Hsteps. rewrite Forall_forall in Hsteps.
  destruct (Hsteps _ Hin) as [Hone|Hex]; simpl in *.
  - rewrite Hone. lia.
  - apply Exists_exists in Hex as ([l0 r0] & Hin0 & Hl0 & Hp0 & Ha0). simpl in *.
    assert (Hm0 : meets r0 base = true).
    { unfold meets in *. apply andb_prop in Hm as [Hp%Z.leb_le Ha%Z.leb_le].
      simpl in Hp, Ha. pose proof (experience_range (AnalysisRecord.overall_score record)).
      apply andb_true_intro. split; apply Z.leb_le; lia. }
    specialize (Hmax _ _ Hin0 Hm0). lia.
Qed.

Lemma recorded_settled base record t_last level_badges added :
  let level := _check_level_up (recorded base record t_last (current_level base) []) in
  settled base ->
  (level_badges = [] /\ level = current_level base
   \/ exists b, level_badges = [b]
        /\ Badge.id b = "level_" +:+ str_of_int level
        /\ current_level base < level) ->
  (forall x, x ∈ Badge.id <$> added -> x ∈ _define_badges.*1) ->
  settled (recorded base record t_last level (level_badges ++ added)).
Proof.
  intros level Hbase Hlb Hadded.
  pose proof (recorded_level_step base record t_last Hbase) as Hstep. fold level in Hstep.
  destruct Hbase as (Hexp & [(req0 & Hrow & Hmet) Hmax] & Hbadges).
  set (p1 := recorded base record t_last (current_level base) []) in *.
  destruct (level_scan_spec _define_level_requirements p1 (current_level p1))
    as (Hge & Hor & Hall). cbv zeta in Hge, Hor, Hall.
  fold (_check_level_up p1) in Hge, Hor, Hall. fold level in Hge, Hor, Hall.
  pose proof (experience_range (AnalysisRecord.overall_score record)) as Hrange.
  split; [|split].
  - unfold experience_bounded in *. simpl. lia.
  - split.
    + destruct Hor as [Heq|(req & Hin & Hm)].
      * exists req0. cbn [recorded current_level]. rewrite Heq. split; [done|].
        eapply meets_le; [| |exact Hmet]; simpl; lia.
      * by exists req.
    + intros l req Hin Hm. by apply (Hall l req Hin).
  - intros z. cbn [recorded badges current_level].
    rewrite !fmap_app, !elem_of_app, (Hbadges z).
    pose proof level_table_range as Htable. rewrite Forall_forall in Htable.
    apply Htable in Hrow. simpl in Hrow.
    split.
    + intros [Hb|[Hl|Ha]].
      * simpl in Hge. lia.
      * destruct Hlb as [[-> _]|(b & -> & Hb & Hlt)]; [by apply elem_of_nil in Hl|].
        apply list_elem_of_singleton in Hl. simpl in Hl. rewrite Hb in Hl.
        apply level_badge_id_inj in Hl. lia.
      * apply Hadded in Ha. by apply level_badge_not_in_catalogue in Ha.
    + intros Hz. destruct Hlb as [[_ Heq]|(b & -> & Hb & Hlt)]; [left; lia|].
      destruct (decide (z = level)) as [->|Hne]; [|left; lia].
      right. left. apply list_elem_of_singleton. simpl. by rewrite Hb.
Qed.

Lemma perform_all_settled (calls : list call) :
  map_Forall (fun _ => settled) (progress_data (perform_all calls (init None))).
Proof.
  apply perform_all_invariant; [|simpl; apply map_Forall_empty].
  apply perform_invariant.
  - apply fresh_settled.
  - intros progress b Hp Hcat _. by apply award_more_settled.
  - intros base record t_last lb added level Hp Hlb Hadded.
    by apply recorded_settled.
Qed.

(** In a ledger grown from the empty store by submissions and manual
    awards, every user's experience lies between 10 and 30 times the
    number of the user's analyses. *)
Theorem ledger_experience_bounds (calls : list call) :
  map_Forall (fun _ progress =>
                10 * total_analyses progress <= experience_points progress
                /\ experience_points progress <= 30 * total_analyses progress)
    (progress_data (perform_all calls (init None))).
Proof.
  eapply map_Forall_impl; [apply perform_all_settled|].
  by intros uid progress (Hexp & _).
Qed.

(** In such a ledger the level of every user is a row of the level table
    whose two thresholds the user meets, and no row whose thresholds the
    user meets has a higher level: [current_level] is the highest level
    that is met. *)
Theorem ledger_level_is_highest_met (calls : list call) :
  map_Forall (fun _ progress =>
                (exists requirements,
                   (current_level progress, requirements) ∈ _define_level_requirements
                   /\ min_points requirements <= experience_points progress
                   /\ min_analyses requirements <= total_analyses progress)
                /\ forall level requirements,
                     (level, requirements) ∈ _define_level_requirements ->
                     min_points requirements <= experience_points progress ->
                     min_analyses requirements <= total_analyses progress ->
                     level <= current_level progress)
    (progress_data (perform_all calls (init None))).
Proof.
  eapply map_Forall_impl; [apply perform_all_settled|].
  intros uid progress (_ & [(req & Hin & Hm) Hmax] & _). split.
  - exists req. unfold meets in Hm.
    apply andb_prop in Hm as [?%Z.leb_le ?%Z.leb_le]. done.
  - intros level r Hr Hp Ha. apply (Hmax level r Hr).
    unfold meets. apply andb_true_intro. split; by apply Z.leb_le.
Qed.

(** In such a ledger the level badges a user holds are exactly those of
    the levels from 2 to the user's current level: none is skipped and
    none is held for a level not reached. *)
Theorem ledger_level_badges (calls : list call) :
  map_Forall (fun _ progress =>
                forall z, "level_" +:+ str_of_int z ∈ Badge.id <$> badges progress
                          <-> 2 <= z <= current_level progress)
    (progress_data (perform_all calls (init None))).
Proof.
  eapply map_Forall_impl; [apply perform_all_settled|].
  by intros uid progress (_ & _ & Hbadges).
Qed.

(** In such a ledger one submission raises the level of its user by at
    most one; a user the submission creates starts from level 1. *)
Theorem submission_raises_level_by_at_most_one (calls : list call) (s : Submission) :
  let w := perform_all calls (init None) in
  let before := from_option current_level 1 (progress_data w !! sub_user s) in
  exists progress,
    progress_data (submit s w).2 !! sub_user s = Some progress
    /\ before <= current_level progress <= before + 1.
Proof.
  cbv zeta. set (w := perform_all calls (init None)).
  pose proof (perform_all_settled calls) as Hall. fold w in Hall.
  unfold submit.
  destruct (add_analysis_record_run (sub_user s) (sub_session s) (sub_score s)
              (sub_angle s) (sub_scores s) w)
    as (k & record & t_last & lb & added & E & _ & _ & _ & _ & Hge & _).
  cbv zeta in *. rewrite E. cbn [snd progress_data].
  rewrite lookup_insert_eq. eexists. split; [reflexivity|].
  cbn [recorded current_level].
  set (base := base_progress w (sub_user s) (now (clock_reads w))) in *.
  assert (Hbase : settled base
                  /\ current_level base
                     = from_option current_level 1 (progress_data w !! sub_user s)).
  { subst base. unfold base_progress.
    destruct (progress_data w !! sub_user s) as [p|] eqn:Hget; simpl.
    - split; [by apply (Hall _ _ Hget)|done].
    - split; [apply (fresh_settled (sub_user s))|done]. }
  destruct Hbase as [Hsettled <-].
  pose proof (recorded_level_step base record t_last Hsettled). lia.
Qed.

End LedgerInvariants.

(** ** What the calls keep of an aggregate *)

(** [progress'] continues [progress]: same user and creation date, the
    records and the badges of [progress] kept in place at the front, no
    counter lower. *)
Definition continues (progress progress' : UserProgress) : Prop :=
  user_id progress' = user_id progress
  /\ created_date progress' = created_date progress
  /\ analysis_records progress `prefix_of` analysis_records progress'
  /\ badges progress `prefix_of` badges progress'
  /\ total_analyses progress <= total_analyses progress'
  /\ experience_points progress <= experience_points progress'.

(** The user a call is made for. *)
Definition call_user (c : call) : string :=
  match c with
  | Submit s => sub_user s
  | Award uid _ => uid
  end.

Lemma continues_refl progress : continues progress progress.
Proof. unfold continues. do 4 (split; [done|]). split; lia. Qed.

Lemma continues_trans p1 p2 p3 : continues p1 p2 -> continues p2 p3 -> continues p1 p3.
Proof.
  intros (Hu & Hc & Hr & Hb & Ht & He) (Hu' & Hc' & Hr' & Hb' & Ht' & He').
  split; [congruence|]. split; [congruence|]. split; [by etrans|].
  split; [by etrans|]. split; lia.
Qed.

Section Continuity.
Context `{PyRuntime}.

Lemma perform_other_user (c : call) (w : World) (uid : string) :
  call_user c <> uid ->
  progress_data (perform w c) !! uid = progress_data w !! uid.
Proof.
  intros Hne. destruct c as [s|uid' badge_id]; simpl in *.
  - unfold submit.
    destruct (add_analysis_record_stored (sub_user s) (sub_session s) (sub_score s)
                (sub_angle s) (sub_scores s) w)
      as (record & t_last & level & extra & Hstore & _ & _).
    cbv zeta in Hstore. rewrite Hstore. by rewrite lookup_insert_ne.
  - pose proof (award_badge_run uid' badge_id w) as Hrun.
    destruct (progress_data w !! uid') as [p|] eqn:Hget; [|by rewrite Hrun].
    case_bool_decide; [|by rewrite Hrun].
    destruct Hrun as (b & _ & ->). cbn [snd progress_data].
    by rewrite lookup_insert_ne.
Qed.

Lemma perform_continues (c : call) (w : World) (uid : string) (progress : UserProgress) :
  progress_data w !! uid = Some progress ->
  exists progress',
    progress_data (perform w c) !! uid = Some progress'
    /\ continues progress progress'.
Proof.
  intros Hget. destruct (decide (call_user c = uid)) as [Heq|Hne]; last first.
  { exists progress. rewrite perform_other_user by done.
    split; [done|apply continues_refl]. }
  destruct c as [s|uid' badge_id]; simpl in *.
  - unfold submit.
    destruct (add_analysis_record_stored (sub_user s) (sub_session s) (sub_score s)
                (sub_angle s) (sub_scores s) w)
      as (record & t_last & level & extra & Hstore & _ & _).
    cbv zeta in Hstore. rewrite Hstore, Heq, lookup_insert_eq.
    eexists. split; [reflexivity|].
    unfold base_progress. rewrite Hget. simpl.
    pose proof (experience_range (AnalysisRecord.overall_score record)).
    split; [done|]. split; [done|]. split; [by apply prefix_app_r|].
    split; [by apply prefix_app_r|]. cbn [recorded total_analyses experience_points].
    split; lia.
  - subst uid'. pose proof (award_badge_run uid badge_id w) as Hrun.
    rewrite Hget in Hrun.
    case_bool_decide.
    + destruct Hrun as (b & _ & ->). cbn [snd progress_data].
      rewrite lookup_insert_eq. eexists. split; [reflexivity|].
      split; [done|]. split; [done|]. split; [done|].
      split; [by apply prefix_app_r|]. simpl. split; lia.
    + rewrite Hrun. exists progress. split; [done|apply continues_refl].
Qed.

(** No call takes anything away: across any sequence of calls a known
    user stays known, with the same [user_id] and [created_date]; the
    records and the badges held before are still there, in place and
    unchanged, at the front of the lists; and neither [total_analyses]
    nor [experience_points] is lower. *)
Theorem calls_only_append (calls : list call) (w : World)
    (uid : string) (progress : UserProgress) :
  progress_data w !! uid = Some progress ->
  exists progress',
    progress_data (perform_all calls w) !! uid = Some progress'
    /\ user_id progress' = user_id progress
    /\ created_date progress' = created_date progress
    /\ analysis_records progress `prefix_of` analysis_records progress'
    /\ badges progress `prefix_of` badges progress'
    /\ total_analyses progress <= total_analyses progress'
    /\ experience_points progress <= experience_points progress'.
Proof.
  intros Hget.
  enough (exists progress',
            progress_data (perform_all calls w) !! uid = Some progress'
            /\ continues progress progress') as (p' & Hget' & Hc).
  { exists p'. split; [done|exact Hc]. }
  revert w progress Hget. unfold perform_all.
  induction calls as [|c calls IH]; intros w progress Hget; simpl.
  - exists progress. split; [done|apply continues_refl].
  - destruct (perform_continues c w uid progress Hget) as (p1 & Hget1 & Hc1).
    destruct (IH _ _ Hget1) as (p2 & Hget2 & Hc2).
    exists p2. split; [done|]. by eapply continues_trans.
Qed.

(** Calls made for other users leave a user's entry of the store as it
    is: the same aggregate, or still absent. *)
Theorem calls_leave_other_users (calls : list call) (w : World) (uid : string) :
  Forall (fun c => call_user c <> uid) calls ->
  progress_data (perform_all calls w) !! uid = progress_data w !! uid.
Proof.
  revert w. unfold perform_all.
  induction calls as [|c calls IH]; intros w Hall; simpl; [done|].
  apply Forall_cons in Hall as [Hc Hall].
  rewrite IH by done. by apply perform_other_user.
Qed.

Lemma perform_saved (c : call) (w : World) :
  perform w c = w
  \/ disk (perform w c) = Some (save_document (progress_data (perform w c))).
Proof.
  destruct c as [s|uid badge_id]; simpl.
  - right. unfold submit.
    destruct (add_analysis_record_run (sub_user s) (sub_session s) (sub_score s)
                (sub_angle s) (sub_scores s) w)
      as (k & record & t_last & lb & added & E & _).
    cbv zeta in E. by rewrite E.
  - pose proof (award_badge_run uid badge_id w) as Hrun.
    destruct (progress_data w !! uid) as [p|] eqn:Hget; [|left; by rewrite Hrun].
    case_bool_decide; [|left; by rewrite Hrun].
    right. destruct Hrun as (b & _ & ->). done.
Qed.

Lemma perform_all_saved (calls : list call) (w : World) :
  perform_all calls w = w
  \/ disk (perform_all calls w)
     = Some (save_document (progress_data (perform_all calls w))).
Proof.
  assert (Hsync : forall calls w,
            disk w = Some (save_document (progress_data w)) ->
            disk (perform_all calls w)
            = Some (save_document (progress_data (perform_all calls w)))).
  { clear. unfold perform_all.
    induction calls as [|c calls IH]; intros w Hw; simpl; [done|].
    apply IH. destruct (perform_saved c w) as [->|?]; done. }
  revert w. unfold perform_all in *.
  induction calls as [|c calls IH]; intros w; simpl; [by left|].
  destruct (perform_saved c w) as [->|Hs]; [apply IH|].
  right. by apply Hsync.
Qed.

(** The file follows the store: after any sequence of calls either
    nothing at all has changed (every call was a refused award), or the
    file holds the document of the whole store as it now is. *)
Theorem calls_keep_file_in_step (calls : list call) (w : World) :
  perform_all calls w = w
  \/ disk (perform_all calls w)
     = Some (save_document (progress_data (perform_all calls w))).
Proof. apply perform_all_saved. Qed.

End Continuity.

(** On [ledger]: [alice] after one more submission and a manual award. *)
Lemma calls_only_append_witness :
  exists progress',
    progress_data (perform_all [alice_fifth; Award "alice" "stance_master"] ledger)
      !! "alice" = Some progress'
    /\ user_id progress' = user_id alice
    /\ created_date progress' = created_date alice
    /\ analysis_records alice `prefix_of` analysis_records progress'
    /\ badges alice `prefix_of` badges progress'
    /\ total_analyses alice <= total_analyses progress'
    /\ experience_points alice <= experience_points progress'.
Proof.
  apply (calls_only_append
           [alice_fifth; Award "alice" "stance_master"] ledger "alice" alice).
  vm_compute. reflexivity.
Defined.

(** On [ledger]: [bob] while calls are made for [alice]. *)
Lemma calls_leave_other_users_witness :
  progress_data (perform_all [alice_fifth; Award "alice" "stance_master"] ledger)
    !! "bob" = progress_data ledger !! "bob".
Proof.
  apply (calls_leave_other_users
           [alice_fifth; Award "alice" "stance_master"] ledger "bob").
  repeat constructor; intros E; vm_compute in E; discriminate.
Defined.

(** ** The snapshot query *)

Lemma level_lookup_elem_of table level requirements :
  level_lookup table level = Some requirements -> (level, requirements) ∈ table.
Proof.
  induction table as [|[k r] rest IH]; simpl; [done|].
  destruct (Z.eqb_spec k level) as [->|Hne].
  - intros [= ->]. apply list_elem_of_here.
  - intros E. apply list_elem_of_further. by apply IH.
Qed.

Lemma level_lookup_None table level :
  level_lookup table level = None -> level ∉ table.*1.
Proof.
  induction table as [|[k r] rest IH]; simpl; [intros _; apply not_elem_of_nil|].
  destruct (Z.eqb_spec k level) as [->|Hne]; [done|].
  intros E. apply not_elem_of_cons. split; [congruence|by apply IH].
Qed.

Section SnapshotFacts.
Context `{PyRuntime}.

Lemma analyze_improvement_trends_world (progress : UserProgress) (w : World) :
  (_analyze_improvement_trends progress w).2 = w
  \/ (_analyze_improvement_trends progress w).2 = advance 1 w.
Proof.
  unfold _analyze_improvement_trends.
  destruct (length (analysis_records progress) <? 3)%nat; [by left|].
  right. unfold mbind, M_bind. rewrite datetime_now_run.
  destruct (length _ <? 2)%nat; [done|]. by destruct (trend_of_scores _).
Qed.

(** [get_user_progress] only reads: it leaves the store and the file as
    they are, answers [None] for a user the store does not hold without
    even reading the clock, and answers a snapshot carrying the counters
    of the stored aggregate for a user it holds. *)
Theorem get_user_progress_read_only (uid : string) (w : World) :
  let outcome := get_user_progress uid w in
  progress_data outcome.2 = progress_data w
  /\ disk outcome.2 = disk w
  /\ match progress_data w !! uid with
     | None => outcome = (None, w)
     | Some progress =>
         exists snapshot,
           outcome.1 = Some snapshot
           /\ Snapshot.user_id snapshot = uid
           /\ Snapshot.total_analyses snapshot = total_analyses progress
           /\ Snapshot.current_level snapshot = current_level progress
           /\ Snapshot.experience_points snapshot = experience_points progress
           /\ length (Snapshot.badges snapshot) = length (badges progress)
     end.
Proof.
  cbv zeta. unfold get_user_progress, mbind, M_bind, get_progress.
  destruct (progress_data w !! uid) as [progress|] eqn:Hget; [|done].
  pose proof (analyze_improvement_trends_world progress w) as Hw.
  destruct (_analyze_improvement_trends progress w) as [trends w'].
  cbn [fst snd mret M_ret] in *.
  split; [by destruct Hw as [->| ->]|]. split; [by destruct Hw as [->| ->]|].
  eexists. split; [reflexivity|]. cbn. by rewrite length_fmap.
Qed.

(** In a ledger grown from the empty store, the snapshot of a user below
    level 7 names the next level with the thresholds of its row, and the
    user does not yet meet both of them; the snapshot of a user at level 7
    carries the notice that the highest level is reached, with thresholds
    0.  A user the ledger does not hold gets no snapshot. *)
Theorem next_level_requirements_pending (calls : list call) (uid : string) :
  let w := perform_all calls (init None) in
  match progress_data w !! uid with
  | None => (get_user_progress uid w).1 = None
  | Some progress =>
      exists snapshot,
        (get_user_progress uid w).1 = Some snapshot
        /\ let next := Snapshot.next_level_requirements snapshot in
           (current_level progress < 7
            /\ NextLevel.level next = current_level progress + 1
            /\ (exists requirements,
                  (current_level progress + 1, requirements)
                    ∈ _define_level_requirements
                  /\ NextLevel.name next = level_name requirements
                  /\ NextLevel.points_needed next = min_points requirements
                  /\ NextLevel.analyses_needed next = min_analyses requirements)
            /\ (experience_points progress < NextLevel.points_needed next
                \/ total_analyses progress < NextLevel.analyses_needed next))
           \/ (current_level progress = 7
               /\ NextLevel.level next = 7
               /\ NextLevel.name next = "最高レベル"
               /\ NextLevel.points_needed next = 0
               /\ NextLevel.analyses_needed next = 0)
  end.
Proof.
  cbv zeta. set (w := perform_all calls (init None)).
  pose proof (perform_all_settled calls) as Hall. fold w in Hall.
  unfold get_user_progress, mbind, M_bind, get_progress.
  destruct (progress_data w !! uid) as [progress|] eqn:Hget; [|done].
  destruct (Hall _ _ Hget) as (_ & [(req0 & Hrow & _) Hmax] & _).
  destruct (_analyze_improvement_trends progress w) as [trends w'].
  eexists. split; [reflexivity|]. cbn [Snapshot.next_level_requirements].
  pose proof level_table_range as Hrange. rewrite Forall_forall in Hrange.
  apply Hrange in Hrow. simpl in Hrow.
  unfold _get_next_level_requirements.
  destruct (level_lookup _define_level_requirements (current_level progress + 1))
    as [req|] eqn:Hlook; cbn.
  - apply level_lookup_elem_of in Hlook as Hin.
    left. apply Hrange in Hin as Hr. simpl in Hr.
    split; [lia|]. split; [done|]. split; [by exists req|].
    destruct (Z.lt_ge_cases (experience_points progress) (min_points req)) as [?|Hp];
      [by left|].
    destruct (Z.lt_ge_cases (total_analyses progress) (min_analyses req)) as [?|Ha];
      [by right|].
    exfalso.
    assert (Hm : meets req progress = true).
    { unfold meets. apply andb_true_intro. split; by apply Z.leb_le. }
    specialize (Hmax _ _ Hin Hm). lia.
  - right. apply level_lookup_None in Hlook.
    assert (current_level progress = 7); [|done].
    destruct (decide (current_level progress = 7)) as [|Hne]; [done|].
    exfalso. apply Hlook.
    assert (Hc : current_level progress = 1 \/ current_level progress = 2
                 \/ current_level progress = 3 \/ current_level progress = 4
                 \/ current_level progress = 5 \/ current_level progress = 6) by lia.
    destruct Hc as [->|[->|[->|[->|[->| ->]]]]];
      apply (bool_decide_unpack _); by vm_compute.
Qed.

End SnapshotFacts.

(** ** What the evaluator awards, and when *)

(** The badge [_award_badge_internal] builds from a catalogue entry at
    time [t]. *)
Definition catalogue_badge (badge_id : string) (badge_def : BadgeDefinition) (t : Z)
    : Badge.t :=
  {| Badge.id := badge_id;
     Badge.name := def_name badge_def;
     Badge.description := def_description badge_def;
     Badge.earned_date := t;
     Badge.icon := def_icon badge_def |}.

Section EvaluatorTrace.
Context `{PyRuntime}.

(** The conditions look at the records and at [total_analyses] only. *)
Lemma check_badge_condition_records p q cond w :
  analysis_records p = analysis_records q ->
  total_analyses p = total_analyses q ->
  _check_badge_condition p cond w = _check_badge_condition q cond w.
Proof. destruct p, q; simpl; intros -> ->; reflexivity. Qed.

Lemma award_badge_internal_known progress badge_id badge_def w :
  badge_lookup _define_badges badge_id = Some badge_def ->
  _award_badge_internal progress badge_id w
  = (award_more progress [catalogue_badge badge_id badge_def (now (clock_reads w))],
     advance 1 w).
Proof. intros E. unfold _award_badge_internal. rewrite E. reflexivity. Qed.

Lemma award_badge_internal_unknown progress badge_id w :
  badge_lookup _define_badges badge_id = None ->
  _award_badge_internal progress badge_id w = (progress, w).
Proof. intros E. unfold _award_badge_internal. by rewrite E. Qed.

(** [b] was appended by a run of the loop over [defs] that started on
    [progress] with the clock at [lo] and ended with the clock at [hi]:
    its entry is auto-awardable and was not in [earned], its condition
    held of the records at a moment of the run, and the badge was built
    from the catalogue at a clock reading of the run not before. *)
Definition awarded_by (defs : list (string * BadgeDefinition)) (earned : gset string)
    (progress : UserProgress) (lo hi : nat) (b : Badge.t) : Prop :=
  exists badge_def w' catalogued j,
    (Badge.id b, badge_def) ∈ defs
    /\ auto_award badge_def = true
    /\ (Badge.id b ∉ earned)
    /\ (_check_badge_condition progress (condition badge_def) w').1 = true
    /\ (lo <= clock_reads w' /\ clock_reads w' <= j /\ j < hi)%nat
    /\ badge_lookup _define_badges (Badge.id b) = Some catalogued
    /\ b = catalogue_badge (Badge.id b) catalogued (now j).

Lemma awarded_by_weaken defs earned progress lo hi b entry extra lo' hi' :
  (lo' <= lo)%nat -> (hi <= hi')%nat ->
  awarded_by defs earned (award_more progress extra) lo hi b ->
  awarded_by (entry :: defs) earned progress lo' hi' b.
Proof.
  intros Hlo Hhi (bd & w' & cat & j & Hin & Hauto & Hnew & Hc & Hj & Hcat & Hb).
  exists bd, w', cat, j. split; [by apply list_elem_of_further|].
  split; [done|]. split; [done|]. split.
  { rewrite <- Hc. by rewrite (check_badge_condition_records progress
                                  (award_more progress extra)). }
  split; [lia|]. done.
Qed.

Lemma auto_badge_loop_trace defs : forall earned progress w,
  exists k added,
    auto_badge_loop earned defs progress w = (award_more progress added, advance k w)
    /\ Forall (awarded_by defs earned progress (clock_reads w) (k + clock_reads w)) added.
Proof.
  induction defs as [|[badge_id badge_def] rest IH]; intros earned progress w.
  - exists 0%nat, []. simpl. by rewrite award_more_nil, advance_0.
  - assert (Hskip : forall k1,
      exists k added,
        auto_badge_loop earned rest progress (advance k1 w)
        = (award_more progress added, advance k w)
        /\ Forall (awarded_by ((badge_id, badge_def) :: rest) earned progress
                     (clock_reads w) (k + clock_reads w)) added).
    { intros k1. destruct (IH earned progress (advance k1 w)) as (k & added & E & HF).
      exists (k + k1)%nat, added. rewrite E, advance_advance. split; [done|].
      eapply Forall_impl; [exact HF|]. intros b Hb.
      eapply awarded_by_weaken with (extra := []);
        [| |rewrite award_more_nil; exact Hb]; simpl; lia. }
    cbn [auto_badge_loop].
    destruct (auto_award badge_def) eqn:Hauto; cbn [negb].
    2:{ destruct (Hskip 0%nat) as (k & added & E & HF). rewrite advance_0 in E.
        by exists k, added. }
    case_bool_decide as Hin.
    { destruct (Hskip 0%nat) as (k & added & E & HF). rewrite advance_0 in E.
      by exists k, added. }
    unfold mbind at 1, M_bind at 1.
    destruct (check_badge_condition_world progress (condition badge_def) w) as [k1 E1].
    destruct (_check_badge_condition progress (condition badge_def) w) as [ok w1] eqn:Hcheck.
    simpl in E1; subst w1.
    destruct ok; [|by apply Hskip].
    unfold mbind at 1, M_bind at 1.
    destruct (badge_lookup _define_badges badge_id) as [cat|] eqn:Hcat.
    + rewrite (award_badge_internal_known _ _ cat) by done.
      set (b := catalogue_badge badge_id cat (now (clock_reads (advance k1 w)))).
      destruct (IH earned (award_more progress [b]) (advance 1 (advance k1 w)))
        as (k & added & E & HF).
      rewrite E. exists (k + 1 + k1)%nat, (b :: added).
      rewrite award_more_app, !advance_advance. split; [done|].
      apply Forall_cons. split.
      * exists badge_def, w, cat, (k1 + clock_reads w)%nat.
        split; [apply list_elem_of_here|]. split; [done|]. split; [done|].
        split; [by rewrite Hcheck|]. split; [lia|]. done.
      * eapply Forall_impl; [exact HF|]. intros b' Hb'.
        eapply awarded_by_weaken with (extra := [b]); [| |exact Hb']; simpl; lia.
    + rewrite award_badge_internal_unknown by done. by apply Hskip.
Qed.

(** The loop does award an auto-awardable catalogue entry of [defs] that
    is not in [earned] and whose condition holds of the records whenever
    it is evaluated. *)
Lemma auto_badge_loop_complete defs : forall earned progress w badge_id badge_def,
  (badge_id, badge_def) ∈ defs ->
  auto_award badge_def = true ->
  badge_id ∉ earned ->
  is_Some (badge_lookup _define_badges badge_id) ->
  (forall w', (_check_badge_condition progress (condition badge_def) w').1 = true) ->
  badge_id ∈ Badge.id <$> badges (auto_badge_loop earned defs progress w).1.
Proof.
  induction defs as [|[k d] rest IH]; intros earned progress w badge_id badge_def
    Hin Hauto Hnew Hcat Hcond; [by apply elem_of_nil in Hin|].
  apply elem_of_cons in Hin as [[= <- <-]|Hin].
  { by apply auto_badge_loop_awards_head. }
  assert (Hrest : forall extra w1,
    badge_id ∈ Badge.id <$> badges (auto_badge_loop earned rest
                                      (award_more progress extra) w1).1).
  { intros extra w1. eapply IH; [exact Hin|exact Hauto|exact Hnew|exact Hcat|].
    intros w'. rewrite <- (Hcond w').
    by rewrite (check_badge_condition_records progress (award_more progress extra)). }
  cbn [auto_badge_loop].
  destruct (auto_award d); cbn [negb];
    [|specialize (Hrest [] w); by rewrite award_more_nil in Hrest].
  case_bool_decide;
    [specialize (Hrest [] w); by rewrite award_more_nil in Hrest|].
  unfold mbind at 1, M_bind at 1.
  destruct (_check_badge_condition progress (condition d) w) as [ok w1].
  destruct ok; [|specialize (Hrest [] w1); by rewrite award_more_nil in Hrest].
  unfold mbind at 1, M_bind at 1.
  destruct (award_badge_internal_run progress k w1) as (k2 & added1 & -> & _).
  apply Hrest.
Qed.

(** Every badge the evaluator leaves on an aggregate was there before or
    was awarded by this run. *)
Lemma check_auto_badges_trace progress w :
  exists k added,
    _check_auto_badges progress w = (award_more progress added, advance k w)
    /\ Forall (awarded_by _define_badges (earned_ids progress) progress
                 (clock_reads w) (k + clock_reads w)) added.
Proof. apply auto_badge_loop_trace. Qed.

End EvaluatorTrace.

(** ** One submission, step by step *)

(** The badge [_award_level_up_badge] builds for [level] at time [t]. *)
Definition level_badge (level : Z) (t : Z) : Badge.t :=
  {| Badge.id := "level_" +:+ str_of_int level;
     Badge.name := "レベル" +:+ str_of_int level +:+ "達成";
     Badge.description := "レベル" +:+ str_of_int level +:+ "に到達しました";
     Badge.earned_date := t;
     Badge.icon := "⭐" |}.

Section SubmissionTrace.
Context `{PyRuntime}.

(** The world after [add_analysis_record], with every clock reading in
    its place: one for a user the call creates, one for the record, one
    for [last_analysis_date], one for a level badge, then those of the
    evaluator. *)
Lemma add_analysis_record_trace uid sid score ang scores w :
  exists k0 k1 k2 level_badges added,
    let base := base_progress w uid (now (clock_reads w)) in
    let record :=
      {| AnalysisRecord.session_id := sid;
         AnalysisRecord.date := now (k0 + clock_reads w);
         AnalysisRecord.overall_score := score; AnalysisRecord.angle := ang;
         AnalysisRecord.category_scores := scores |} in
    let t_last := now (1 + k0 + clock_reads w) in
    let level := _check_level_up (recorded base record t_last (current_level base) []) in
    let evaluated := recorded base record t_last level level_badges in
    let final := award_more evaluated added in
    let store := <[uid := final]> (progress_data w) in
    (add_analysis_record uid sid score ang scores w).2
      = {| progress_data := store; disk := Some (save_document store);
           clock_reads := (k2 + k1 + clock_reads w)%nat |}
    /\ (k0 = 0%nat /\ is_Some (progress_data w !! uid)
        \/ k0 = 1%nat /\ progress_data w !! uid = None)
    /\ (level_badges = [] /\ level = current_level base /\ k1 = (2 + k0)%nat
        \/ level_badges = [level_badge level (now (2 + k0 + clock_reads w))]
           /\ current_level base < level /\ k1 = (3 + k0)%nat)
    /\ Forall (awarded_by _define_badges (earned_ids evaluated) evaluated
                 (k1 + clock_reads w) (k2 + k1 + clock_reads w)) added
    /\ _check_auto_badges evaluated (advance k1 w) = (final, advance (k2 + k1) w).
Proof.
  unfold add_analysis_record.
  set (base := base_progress w uid (now (clock_reads w))).
  unfold mbind at 1, M_bind at 1, get_progress at 1.
  assert (Hbase : exists k0,
    (match progress_data w !! uid with
     | Some progress => mret progress
     | None => new_user uid
     end) w = (base, advance k0 w)
    /\ (k0 = 0%nat /\ is_Some (progress_data w !! uid)
        \/ k0 = 1%nat /\ progress_data w !! uid = None)).
  { subst base. unfold base_progress.
    destruct (progress_data w !! uid) as [p|] eqn:Hget.
    - exists 0%nat. rewrite advance_0. split; [done|]. left. by split; [|eexists].
    - exists 1%nat. split; [reflexivity|]. right. by split. }
  destruct Hbase as (k0 & Hbase & Hk0).
  unfold mbind at 1, M_bind at 1. rewrite Hbase. clear Hbase.
  unfold mbind at 1, M_bind at 1. rewrite datetime_now_run.
  unfold mbind at 1, M_bind at 1. rewrite datetime_now_run.
  rewrite !advance_advance.
  change (clock_reads (advance k0 w)) with (k0 + clock_reads w)%nat.
  change (clock_reads (advance (1 + k0) w)) with (1 + k0 + clock_reads w)%nat.
  set (record := {| AnalysisRecord.session_id := sid;
                    AnalysisRecord.date := now (k0 + clock_reads w);
                    AnalysisRecord.overall_score := score; AnalysisRecord.angle := ang;
                    AnalysisRecord.category_scores := scores |}).
  set (t_last := now (1 + k0 + clock_reads w)).
  change (_calculate_experience_points score)
    with (_calculate_experience_points (AnalysisRecord.overall_score record)).
  set (p1 := {| user_id := user_id base; total_analyses := total_analyses base + 1;
                current_level := current_level base;
                experience_points :=
                  experience_points base
                  + _calculate_experience_points (AnalysisRecord.overall_score record);
                analysis_records := analysis_records base ++ [record];
                badges := badges base;
                created_date := created_date base;
                last_analysis_date := Some t_last |}).
  assert (Hp1 : p1 = recorded base record t_last (current_level base) []).
  { subst p1. unfold recorded. by rewrite app_nil_r. }
  set (level := _check_level_up p1) in *.
  simpl (current_level p1).
  assert (Hlvl : exists k1 level_badges,
    (if current_level base <? level
     then _award_level_up_badge
            {| user_id := user_id p1; total_analyses := total_analyses p1;
               current_level := level; experience_points := experience_points p1;
               analysis_records := analysis_records p1; badges := badges p1;
               created_date := created_date p1;
               last_analysis_date := last_analysis_date p1 |} level
     else mret p1) (advance (1 + (1 + k0)) w)
    = (recorded base record t_last level level_badges, advance k1 w)
    /\ (level_badges = [] /\ level = current_level base /\ k1 = (2 + k0)%nat
        \/ level_badges = [level_badge level (now (2 + k0 + clock_reads w))]
           /\ current_level base < level /\ k1 = (3 + k0)%nat)).
  { destruct (Z.ltb_spec (current_level base) level) as [Hlt|Hnlt].
    - exists (3 + k0)%nat, [level_badge level (now (2 + k0 + clock_reads w))].
      split; [reflexivity|]. right. done.
    - pose proof (check_level_up_ge p1) as Hge. simpl in Hge. fold level in Hge.
      exists (2 + k0)%nat, []. split.
      + assert (level = current_level base) as -> by lia. by rewrite Hp1.
      + left. split; [done|]. split; [lia|done]. }
  destruct Hlvl as (k1 & level_badges & Hrun & Hlb).
  unfold mbind at 1, M_bind at 1. rewrite Hrun.
  unfold mbind at 1, M_bind at 1.
  destruct (check_auto_badges_trace (recorded base record t_last level level_badges)
              (advance k1 w)) as (k2 & added & Hloop & Hawarded).
  rewrite Hloop, advance_advance.
  exists k0, k1, k2, level_badges, added.
  cbv zeta. fold record. fold t_last. rewrite <- Hp1. fold level.
  split; [reflexivity|]. split; [exact Hk0|]. split; [exact Hlb|].
  split; [|by rewrite Hloop, advance_advance].
  cbn [advance clock_reads] in Hawarded. by rewrite Nat.add_assoc in Hawarded.
Qed.

End SubmissionTrace.

(** ** Which badges a submission brings *)

Lemma catalogue_all_auto :
  Forall (fun entry : string * BadgeDefinition => auto_award entry.2 = true)
    _define_badges.
Proof. repeat constructor. Qed.

Section AwardedBadges.
Context `{PyRuntime}.

(** Apart from the two conditions on a time window, a condition does not
    read the clock. *)
Lemma check_badge_condition_clock_free progress cond w w' :
  cond <> "weekly_analyses >= 3" ->
  cond <> "monthly_analyses >= 8" ->
  (_check_badge_condition progress cond w).1
  = (_check_badge_condition progress cond w').1.
Proof.
  intros Hweek Hmonth. unfold _check_badge_condition.
  destruct (String.eqb_spec cond "analysis_count >= 1"); [done|].
  destruct (String.eqb_spec cond "weekly_analyses >= 3"); [done|].
  destruct (String.eqb_spec cond "monthly_analyses >= 8"); [done|].
  repeat case_match; reflexivity.
Qed.

(** What a catalogue id found among the badges after a submission comes
    from: it was held before, or the evaluator awarded it on a condition
    that held of the records at a clock reading of the call. *)
Lemma submission_badge_origin uid sid score ang scores w :
  exists final,
    progress_data (add_analysis_record uid sid score ang scores w).2 !! uid
      = Some final
    /\ forall badge_id,
         badge_id ∈ _define_badges.*1 ->
         badge_id ∈ Badge.id <$> badges final ->
         badge_id ∈ Badge.id <$> from_option badges [] (progress_data w !! uid)
         \/ exists badge_def w1,
              badge_lookup _define_badges badge_id = Some badge_def
              /\ (_check_badge_condition final (condition badge_def) w1).1 = true
              /\ (clock_reads w <= clock_reads w1
                  < clock_reads (add_analysis_record uid sid score ang scores w).2)%nat.
Proof.
  destruct (add_analysis_record_trace uid sid score ang scores w)
    as (k0 & k1 & k2 & lb & added & E & _ & Hlb & Hawarded & _).
  cbv zeta in *. rewrite E. cbn [snd progress_data clock_reads].
  rewrite lookup_insert_eq. eexists. split; [reflexivity|].
  set (base := base_progress w uid (now (clock_reads w))) in *.
  set (record := AnalysisRecord.mk sid _ score ang scores) in *.
  set (t_last := now (1 + k0 + clock_reads w)) in *.
  set (level := _check_level_up _) in *.
  set (evaluated := recorded base record t_last level lb) in *.
  assert (Hbase : badges base = from_option badges [] (progress_data w !! uid)).
  { subst base. unfold base_progress. by destruct (progress_data w !! uid). }
  rewrite <- Hbase.
  intros badge_id Hcat. cbn [award_more badges]. subst evaluated.
  cbn [recorded badges]. rewrite !fmap_app, !elem_of_app.
  intros [[Hb|Hl]|Ha]; [by left| |].
  - exfalso. destruct Hlb as [(-> & _)|(-> & _)]; [by apply elem_of_nil in Hl|].
    apply list_elem_of_singleton in Hl. simpl in Hl.
    apply (level_badge_not_in_catalogue level). simpl. by rewrite <- Hl.
  - right. apply list_elem_of_fmap in Ha as (b & -> & Hb).
    rewrite Forall_forall in Hawarded.
    destruct (Hawarded _ Hb) as (bd & w1 & cat & j & Hin & _ & _ & Hc & Hj & _).
    exists bd, w1. split; [by apply elem_of_badge_lookup; [apply badge_keys_NoDup|]|].
    split; [|lia].
    by rewrite (check_badge_condition_records _ (recorded base record t_last level lb)).
Qed.

(** A catalogue badge outside the two time-window badges is held after a
    submission exactly when it was held before or its condition holds of
    the aggregate as stored: the evaluator neither misses such a badge
    nor awards it without cause. *)
Theorem auto_award_exactly_when_satisfied (uid sid : string) (score : float)
    (ang : string) (scores : option (gmap string float)) (w : World)
    (badge_id : string) (badge_def : BadgeDefinition) :
  (badge_id, badge_def) ∈ _define_badges ->
  condition badge_def <> "weekly_analyses >= 3" ->
  condition badge_def <> "monthly_analyses >= 8" ->
  exists final,
    progress_data (add_analysis_record uid sid score ang scores w).2 !! uid
      = Some final
    /\ (badge_id ∈ Badge.id <$> badges final
        <-> badge_id ∈ Badge.id <$> from_option badges [] (progress_data w !! uid)
            \/ (_check_badge_condition final (condition badge_def) w).1 = true).
Proof.
  intros Hentry Hweek Hmonth.
  assert (Hcat : badge_id ∈ _define_badges.*1).
  { apply list_elem_of_fmap. by exists (badge_id, badge_def). }
  pose proof (elem_of_badge_lookup _ _ _ badge_keys_NoDup Hentry) as Hlook.
  destruct (submission_badge_origin uid sid score ang scores w)
    as (final & Hget & Horigin).
  exists final. split; [exact Hget|]. split.
  - intros Hheld. destruct (Horigin _ Hcat Hheld) as [?|(bd & w1 & Hbd & Hc & _)];
      [by left|right].
    assert (bd = badge_def) as -> by congruence.
    rewrite <- Hc. by apply check_badge_condition_clock_free.
  - destruct (add_analysis_record_trace uid sid score ang scores w)
      as (k0 & k1 & k2 & lb & added & E & _ & _ & _ & Hloop).
    cbv zeta in *. rewrite E in Hget. cbn [snd progress_data] in Hget.
    rewrite lookup_insert_eq in Hget. injection Hget as <-.
    set (base := base_progress w uid (now (clock_reads w))) in *.
    set (record := AnalysisRecord.mk sid _ score ang scores) in *.
    set (t_last := now (1 + k0 + clock_reads w)) in *.
    set (level := _check_level_up _) in *.
    set (evaluated := recorded base record t_last level lb) in *.
    assert (Hbase : badges base = from_option badges [] (progress_data w !! uid)).
    { subst base. unfold base_progress. by destruct (progress_data w !! uid). }
    rewrite <- Hbase.
    intros [Hb|Hc].
    { cbn [award_more badges]. subst evaluated. cbn [recorded badges].
      rewrite !fmap_app, !elem_of_app. by left; left. }
    destruct (decide (badge_id ∈ Badge.id <$> badges evaluated)) as [Hheld|Hnew].
    { cbn [award_more badges]. rewrite fmap_app, elem_of_app. by left. }
    assert (Hin : badge_id
                  ∈ Badge.id <$> badges (_check_auto_badges evaluated
                                           (advance k1 w)).1).
    { unfold _check_auto_badges.
      apply (auto_badge_loop_complete _ _ _ _ badge_id badge_def); [done| | | |].
      - pose proof catalogue_all_auto as Hall. rewrite Forall_forall in Hall.
        by apply (Hall _ Hentry).
      - unfold earned_ids. by rewrite elem_of_list_to_set.
      - by apply badge_lookup_key.
      - intros w'. rewrite <- Hc.
        rewrite (check_badge_condition_records (award_more evaluated added) evaluated)
          by done.
        by apply check_badge_condition_clock_free. }
    by rewrite Hloop in Hin.
Qed.

(** A submission brings [consistent_week] only if, at a clock reading of
    the call, at least 3 of the user's records (the new one included) are
    no older than 7 days; and [monthly_warrior] only if at least 8 are no
    older than 30 days. *)
Theorem time_window_badges_need_recent_records (uid sid : string) (score : float)
    (ang : string) (scores : option (gmap string float)) (w : World) :
  let w' := (add_analysis_record uid sid score ang scores w).2 in
  let held_before badge_id :=
    badge_id ∈ Badge.id <$> from_option badges [] (progress_data w !! uid) in
  exists final,
    progress_data w' !! uid = Some final
    /\ ("consistent_week" ∈ Badge.id <$> badges final ->
        held_before "consistent_week"
        \/ exists j, (clock_reads w <= j < clock_reads w')%nat
             /\ Nat.le 3 (length (filter (fun r => now j - timedelta_days 7
                                                    ≤ AnalysisRecord.date r)
                                     (analysis_records final))))
    /\ ("monthly_warrior" ∈ Badge.id <$> badges final ->
        held_before "monthly_warrior"
        \/ exists j, (clock_reads w <= j < clock_reads w')%nat
             /\ Nat.le 8 (length (filter (fun r => now j - timedelta_days 30
                                                    ≤ AnalysisRecord.date r)
                                     (analysis_records final)))).
Proof.
  cbv zeta.
  destruct (submission_badge_origin uid sid score ang scores w)
    as (final & Hget & Horigin).
  exists final. split; [exact Hget|]. split.
  - intros Hheld.
    destruct (Horigin "consistent_week") as [?|(bd & w1 & Hbd & Hc & Hj)];
      [apply (bool_decide_unpack _); by vm_compute|done|by left|].
    right. exists (clock_reads w1). split; [done|].
    injection Hbd as <-. apply Nat.leb_le. exact Hc.
  - intros Hheld.
    destruct (Horigin "monthly_warrior") as [?|(bd & w1 & Hbd & Hc & Hj)];
      [apply (bool_decide_unpack _); by vm_compute|done|by left|].
    right. exists (clock_reads w1). split; [done|].
    injection Hbd as <-. apply Nat.leb_le. exact Hc.
Qed.

End AwardedBadges.

(** On [ledger]: [perfectionist] for [alice] after a submission scored 96. *)
Lemma auto_award_exactly_when_satisfied_witness :
  exists final,
    progress_data (add_analysis_record "alice" "a-96" 96 "side" None ledger).2
      !! "alice" = Some final
    /\ ("perfectionist" ∈ Badge.id <$> badges final
        <-> "perfectionist"
              ∈ Badge.id <$> from_option badges [] (progress_data ledger !! "alice")
            \/ (_check_badge_condition final
                  (condition
                     {| def_name := "完璧主義者";
                        def_description := "総合スコア95点以上を達成";
                        def_icon := "💎"; auto_award := true;
                        condition := "overall_score >= 95" |}) ledger).1 = true).
Proof.
  apply (auto_award_exactly_when_satisfied "alice" "a-96" 96 "side" None ledger
           "perfectionist").
  - do 7 apply list_elem_of_further. apply list_elem_of_here.
  - discriminate.
  - discriminate.
Defined.

(** ** The callers in [api/main.py] *)

Module Api.
Section Endpoints.
Context `{PyRuntime}.

(** [save_analysis_progress], the background task that [analyze_video]
    schedules for a request that names a user.  It passes no
    [category_scores].  The log lines are left out; the [except] branch
    has nothing to catch, [add_analysis_record] raising nothing here. *)
Definition save_analysis_progress (uid sid : string) (score : float)
    (ang : string) : M unit :=
  add_analysis_record uid sid score ang None;;
  mret tt.

(** The endpoint [award_badge]: the answer of the manager, turned into
    the [message] and [success] of the response. *)
Definition award_badge (uid badge_id : string) : M (string * bool) :=
  success ← award_badge uid badge_id;
  if (success : bool)
  then mret ("バッジ '" +:+ badge_id +:+ "' を授与しました", true)
  else mret ("バッジ授与に失敗しました", false).

End Endpoints.
End Api.

(** What reaches the manager through the API. *)
Inductive request :=
| SaveProgress (uid sid : string) (score : float) (ang : string)
| AwardBadge (uid badge_id : string).

(** The mutating call of the manager behind a request. *)
Definition request_call (r : request) : call :=
  match r with
  | SaveProgress uid sid score ang =>
      Submit {| sub_user := uid; sub_session := sid; sub_score := score;
                sub_angle := ang; sub_scores := None |}
  | AwardBadge uid badge_id => Award uid badge_id
  end.

(** No record carries category scores. *)
Definition unscored (progress : UserProgress) : Prop :=
  Forall (fun record => AnalysisRecord.category_scores record = None)
    (analysis_records progress).

Section ApiFacts.
Context `{PyRuntime}.

(** The world after one request, and after a sequence of them. *)
Definition serve (w : World) (r : request) : World :=
  match r with
  | SaveProgress uid sid score ang => (Api.save_analysis_progress uid sid score ang w).2
  | AwardBadge uid badge_id => (Api.award_badge uid badge_id w).2
  end.

Definition serve_all (requests : list request) (w : World) : World :=
  foldl serve w requests.

Lemma serve_perform (w : World) (r : request) :
  serve w r = perform w (request_call r).
Proof.
  destruct r as [uid sid score ang|uid badge_id]; simpl.
  - unfold Api.save_analysis_progress, submit, mbind, M_bind. simpl.
    by destruct (add_analysis_record uid sid score ang None w).
  - unfold Api.award_badge, mbind, M_bind.
    by destruct (award_badge uid badge_id w) as [[|] w'].
Qed.

Lemma check_category_score_unscored (progress : UserProgress) (category : string)
    (threshold : float) :
  unscored progress -> _check_category_score progress category threshold = false.
Proof.
  unfold unscored, _check_category_score. intros Hall.
  assert (Hex : forall records : list AnalysisRecord.t,
    Forall (fun record => AnalysisRecord.category_scores record = None) records ->
    existsb
      (fun record =>
         match AnalysisRecord.category_scores record with
         | Some scores =>
             match scores !! category with
             | Some value => (threshold <=? value)%float
             | None => false
             end
         | None => false
         end) records = false).
  { induction 1 as [|r rs Hr _ IH]; simpl; [done|]. by rewrite Hr. }
  case_match; apply Hex; [|done].
  unfold last_n. by apply Forall_drop.
Qed.

Lemma category_conditions (progress : UserProgress) (w : World) :
  _check_badge_condition progress "stance_score >= 90" w
  = (_check_category_score progress "stance" 90, w)
  /\ _check_badge_condition progress "swing_score >= 85" w
     = (_check_category_score progress "swing_path" 85, w)
  /\ _check_badge_condition progress "balance_score >= 85" w
     = (_check_category_score progress "balance" 85, w).
Proof. repeat split; reflexivity. Qed.

(** One request keeps the records without category scores, and brings a
    category badge only by a manual award. *)
Lemma serve_category_badges (w : World) (r : request) :
  map_Forall (fun _ => unscored) (progress_data w) ->
  map_Forall (fun _ => unscored) (progress_data (serve w r))
  /\ forall uid badge_id,
       badge_id ∈ ["stance_master"; "swing_artist"; "balance_keeper"] ->
       (1 <= held_count (serve w r) uid badge_id)%nat ->
       (1 <= held_count w uid badge_id)%nat \/ r = AwardBadge uid badge_id.
Proof.
  intros Hall. rewrite serve_perform.
  destruct r as [user sid score ang|user bid]; cbn [request_call perform].
  - unfold submit. cbn [sub_user sub_session sub_score sub_angle sub_scores].
    destruct (add_analysis_record_run user sid score ang None w)
      as (k & record & t_last & lb & added & E & _ & _ & _ & Hscores & _).
    destruct (submission_badge_origin user sid score ang None w)
      as (final & Hget & Horigin).
    cbv zeta in E. rewrite E in Hget |- *. cbn [snd progress_data] in *.
    rewrite lookup_insert_eq in Hget. injection Hget as Hfinal.
    assert (Hun : unscored final).
    { rewrite <- Hfinal. unfold unscored. cbn [recorded analysis_records].
      apply Forall_app. split; [|by repeat constructor].
      unfold base_progress.
      destruct (progress_data w !! user) as [p|] eqn:Hp; simpl; [|constructor].
      by apply (Hall _ _ Hp). }
    split.
    { rewrite Hfinal. by apply map_Forall_insert_2. }
    intros uid badge_id Hthree Hheld. left.
    unfold held_count in Hheld |- *. cbn [progress_data] in Hheld.
    destruct (decide (user = uid)) as [->|Hne];
      [|by rewrite lookup_insert_ne in Hheld by done].
    rewrite lookup_insert_eq in Hheld. cbn [from_option] in Hheld.
    rewrite Hfinal in Hheld. apply count_id_elem in Hheld.
    assert (Hcat : badge_id ∈ _define_badges.*1).
    { clear -Hthree. rewrite !elem_of_cons in Hthree.
      destruct Hthree as [->|[->|[->|Hnil]]];
        [| | |by apply elem_of_nil in Hnil];
        apply (bool_decide_unpack _); by vm_compute. }
    destruct (Horigin _ Hcat Hheld) as [Hbefore|(bd & w1 & Hbd & Hc & _)].
    { destruct (progress_data w !! uid) as [p|]; simpl in *;
        [by apply count_id_elem|by apply elem_of_nil in Hbefore]. }
    exfalso. destruct (category_conditions final w1) as (Hs & Hp & Hb).
    rewrite !elem_of_cons in Hthree.
    destruct Hthree as [->|[->|[->|Hnil]]]; [| | |by apply elem_of_nil in Hnil];
      injection Hbd as <-; cbn [condition] in Hc.
    + rewrite Hs in Hc. cbn [fst] in Hc.
      by rewrite check_category_score_unscored in Hc.
    + rewrite Hp in Hc. cbn [fst] in Hc.
      by rewrite check_category_score_unscored in Hc.
    + rewrite Hb in Hc. cbn [fst] in Hc.
      by rewrite check_category_score_unscored in Hc.
  - pose proof (award_badge_run user bid w) as Hrun.
    destruct (progress_data w !! user) as [p|] eqn:Hp;
      [|rewrite Hrun; split; [done|by left]].
    case_bool_decide; [|rewrite Hrun; split; [done|by left]].
    destruct Hrun as (b & Hb & ->). cbn [snd progress_data]. split.
    { apply map_Forall_insert_2; [|done]. by apply (Hall _ _ Hp). }
    intros uid badge_id _ Hheld.
    unfold held_count in Hheld |- *. cbn [progress_data] in Hheld.
    destruct (decide (user = uid)) as [->|Hne];
      [|left; by rewrite lookup_insert_ne in Hheld by done].
    rewrite lookup_insert_eq in Hheld. cbn [from_option award_more badges] in Hheld.
    rewrite Hp. cbn [from_option].
    rewrite count_id_app in Hheld.
    destruct (decide (bid = badge_id)) as [->|Hneq]; [by right|left].
    assert (count_id badge_id [b] = 0%nat); [|lia].
    apply count_id_zero. simpl. rewrite Hb.
    intros Hin. apply list_elem_of_singleton in Hin. congruence.
Qed.

(** Through the API the three category badges are never earned: in a
    ledger grown from the empty store by requests, a user holds
    [stance_master], [swing_artist] or [balance_keeper] only if a request
    awarded that badge to that user by hand, because the background task
    records every analysis without category scores. *)
Theorem api_category_badges_only_by_hand (requests : list request)
    (uid badge_id : string) :
  badge_id ∈ ["stance_master"; "swing_artist"; "balance_keeper"] ->
  (1 <= held_count (serve_all requests (init None)) uid badge_id)%nat ->
  AwardBadge uid badge_id ∈ requests.
Proof.
  intros Hthree.
  enough (Hgen : map_Forall (fun _ => unscored)
                   (progress_data (serve_all requests (init None)))
                 /\ ((1 <= held_count (serve_all requests (init None)) uid badge_id)%nat ->
                     AwardBadge uid badge_id ∈ requests)) by apply Hgen.
  unfold serve_all.
  induction requests as [|r requests IH] using rev_ind.
  - simpl. split; [apply map_Forall_empty|].
    unfold held_count. simpl. rewrite lookup_empty. simpl. lia.
  - rewrite foldl_app. cbn [foldl]. destruct IH as [Hun IH].
    destruct (serve_category_badges (foldl serve (init None) requests) r Hun)
      as [Hun' Hstep].
    split; [exact Hun'|]. intros Hheld. rewrite elem_of_app.
    destruct (Hstep uid badge_id Hthree Hheld) as [Hbefore| ->].
    + left. by apply IH.
    + right. apply list_elem_of_singleton. done.
Qed.

End ApiFacts.

(** Two requests for [alice]: one analysis, one manual award. *)
Lemma api_category_badges_only_by_hand_witness :
  AwardBadge "alice" "stance_master"
    ∈ [SaveProgress "alice" "s1" 80 "side"; AwardBadge "alice" "stance_master"].
Proof.
  apply (api_category_badges_only_by_hand
           [SaveProgress "alice" "s1" 80 "side"; AwardBadge "alice" "stance_master"]
           "alice" "stance_master").
  - apply list_elem_of_here.
  - vm_compute. lia.
Defined.

(** ** Restarting the manager *)

(** [t] is one of the first [n] readings of the clock. *)
Definition clock_reading `{PyRuntime} (n : nat) (t : Z) : Prop :=
  exists j, (j < n)%nat /\ t = now j.

(** Every timestamp of the aggregate is one of the first [n] readings of
    the clock. *)
Definition clocked `{PyRuntime} (n : nat) (progress : UserProgress) : Prop :=
  Forall (clock_reading n) (timestamps progress).

Section Restart.
Context `{PyRuntime}.

Lemma clock_reading_mono (n n' : nat) (t : Z) :
  (n <= n')%nat -> clock_reading n t -> clock_reading n' t.
Proof. intros Hle (j & Hj & ->). exists j. split; [lia|done]. Qed.

Lemma clock_reading_now (n j : nat) : (j < n)%nat -> clock_reading n (now j).
Proof. intros Hj. by exists j. Qed.

Lemma clocked_mono (n n' : nat) (progress : UserProgress) :
  (n <= n')%nat -> clocked n progress -> clocked n' progress.
Proof.
  intros Hle Hc. unfold clocked. eapply Forall_impl; [exact Hc|].
  intros t. by apply clock_reading_mono.
Qed.

Lemma clocked_parts (n : nat) (progress : UserProgress) :
  clocked n progress
  <-> clock_reading n (created_date progress)
      /\ Forall (clock_reading n) (option_list (last_analysis_date progress))
      /\ Forall (clock_reading n) (AnalysisRecord.date <$> analysis_records progress)
      /\ Forall (clock_reading n) (Badge.earned_date <$> badges progress).
Proof. unfold clocked, timestamps. by rewrite Forall_cons, !Forall_app. Qed.

(** The outcome of a successful [award_badge], with the badge it
    appends. *)
Lemma award_badge_trace uid badge_id w progress :
  progress_data w !! uid = Some progress ->
  (award_badge uid badge_id w).1 = true ->
  exists badge_def,
    badge_lookup _define_badges badge_id = Some badge_def
    /\ (award_badge uid badge_id w).2
       = let store :=
           <[uid := award_more progress
                      [catalogue_badge badge_id badge_def (now (clock_reads w))]]>
             (progress_data w) in
         {| progress_data := store; disk := Some (save_document store);
            clock_reads := (1 + clock_reads w)%nat |}.
Proof.
  intros Hget. unfold award_badge, mbind, M_bind, get_progress. rewrite Hget.
  destruct (badge_lookup _define_badges badge_id) as [bd|] eqn:Hbd; [|done].
  case_bool_decide; [done|]. intros _.
  exists bd. split; [done|].
  by rewrite (award_badge_internal_known _ _ bd).
Qed.

Lemma perform_clock (c : call) (w : World) :
  (clock_reads w <= clock_reads (perform w c))%nat.
Proof.
  destruct c as [s|uid badge_id]; simpl.
  - unfold submit.
    destruct (add_analysis_record_run (sub_user s) (sub_session s) (sub_score s)
                (sub_angle s) (sub_scores s) w)
      as (k & record & t_last & lb & added & E & _).
    cbv zeta in E. rewrite E. simpl. lia.
  - pose proof (award_badge_run uid badge_id w) as Hrun.
    destruct (progress_data w !! uid) as [p|]; [|by rewrite Hrun].
    case_bool_decide; [|by rewrite Hrun].
    destruct Hrun as (b & _ & ->). simpl. lia.
Qed.

(** A call keeps every timestamp of the store a reading of the clock. *)
Lemma perform_clocked (c : call) (w : World) :
  map_Forall (fun _ => clocked (clock_reads w)) (progress_data w) ->
  map_Forall (fun _ => clocked (clock_reads (perform w c)))
    (progress_data (perform w c)).
Proof.
  intros Hall.
  assert (Hold : map_Forall (fun _ => clocked (clock_reads (perform w c)))
                   (progress_data w)).
  { eapply map_Forall_impl; [exact Hall|]. intros uid p.
    apply clocked_mono, perform_clock. }
  destruct c as [s|uid badge_id]; cbn [perform] in *.
  - unfold submit in *.
    destruct (add_analysis_record_trace (sub_user s) (sub_session s) (sub_score s)
                (sub_angle s) (sub_scores s) w)
      as (k0 & k1 & k2 & lb & added & E & Hk0 & Hlb & Hawarded & _).
    cbv zeta in *. rewrite E in Hold |- *. cbn [progress_data clock_reads] in *.
    apply map_Forall_insert_2; [|done].
    set (n := (k2 + k1 + clock_reads w)%nat) in *.
    assert (Hk1 : (2 + k0 <= k1)%nat).
    { destruct Hlb as [(_ & _ & ->)|(_ & _ & ->)]; lia. }
    apply clocked_parts.
    cbn [award_more recorded created_date last_analysis_date analysis_records
         badges option_list].
    assert (Hbase : clocked n (base_progress w (sub_user s) (now (clock_reads w)))).
    { unfold base_progress.
      destruct (progress_data w !! sub_user s) as [p|] eqn:Hp; cbn [default].
      - by apply (Hold _ _ Hp).
      - apply clocked_parts. cbn. split; [apply clock_reading_now; lia|].
        repeat split; constructor. }
    apply clocked_parts in Hbase as (Hc & _ & Hr & Hb).
    split; [exact Hc|]. split.
    { repeat constructor. apply clock_reading_now. lia. }
    split.
    { rewrite fmap_app. apply Forall_app. split; [exact Hr|].
      repeat constructor. cbn. apply clock_reading_now. lia. }
    rewrite !fmap_app, !Forall_app. split; [split; [exact Hb|]|].
    + destruct Hlb as [(-> & _)|(-> & _ & ->)]; [constructor|].
      repeat constructor. cbn. apply clock_reading_now. lia.
    + apply Forall_fmap. eapply Forall_impl; [exact Hawarded|].
      intros b (bd & w' & cat & j & _ & _ & _ & _ & Hj & _ & ->). cbn.
      apply clock_reading_now. lia.
  - destruct (progress_data w !! uid) as [p|] eqn:Hp; last first.
    { pose proof (award_badge_run uid badge_id w) as Hrun. rewrite Hp in Hrun.
      rewrite Hrun in Hold |- *. exact Hold. }
    destruct (award_badge uid badge_id w).1 eqn:Hok; last first.
    { pose proof (award_badge_run uid badge_id w) as Hrun. rewrite Hp in Hrun.
      case_bool_decide.
      - destruct Hrun as (b & _ & Hrun). rewrite Hrun in Hok. discriminate.
      - rewrite Hrun in Hold |- *. exact Hold. }
    destruct (award_badge_trace uid badge_id w p Hp Hok) as (bd & _ & E).
    cbv zeta in E. rewrite E in Hold |- *. cbn [progress_data clock_reads] in *.
    apply map_Forall_insert_2; [|done].
    pose proof (Hold _ _ Hp) as Hprev.
    apply clocked_parts in Hprev as (Hc & Hl & Hr & Hb).
    apply clocked_parts.
    cbn [award_more created_date last_analysis_date analysis_records badges].
    split; [exact Hc|]. split; [exact Hl|]. split; [exact Hr|].
    rewrite fmap_app. apply Forall_app. split; [exact Hb|].
    repeat constructor. cbn. apply clock_reading_now. lia.
Qed.

Lemma perform_all_clocked (calls : list call) : forall w,
  map_Forall (fun _ => clocked (clock_reads w)) (progress_data w) ->
  map_Forall (fun _ => clocked (clock_reads (perform_all calls w)))
    (progress_data (perform_all calls w)).
Proof.
  unfold perform_all.
  induction calls as [|c calls IH]; intros w Hw; [done|].
  simpl. apply IH. by apply perform_clocked.
Qed.

(** A manager started on the file that a ledger grown from the empty
    store left behind holds that ledger again, each aggregate as
    [reloaded] gives it (records without category scores come back with
    empty ones), provided the runtime reads back the ISO text of every
    clock reading the ledger has taken. *)
Theorem restart_reloads_ledger (calls : list call) :
  let w := perform_all calls (init None) in
  (forall j, (j < clock_reads w)%nat -> reads_back (now j)) ->
  progress_data (init (disk w)) = reloaded <$> progress_data w.
Proof.
  cbv zeta. intros Hreads.
  pose proof (perform_all_clocked calls (init None)) as Hclocked.
  destruct (perform_all_saved calls (init None)) as [Hsame|Hsaved].
  - rewrite Hsame. cbn. by rewrite fmap_empty.
  - rewrite Hsaved. cbn [init progress_data _load_data].
    rewrite load_document_save_document; [done|].
    eapply map_Forall_impl; [apply Hclocked; cbn; apply map_Forall_empty|].
    intros uid p Hp. eapply Forall_impl; [exact Hp|].
    intros t (j & Hj & ->). by apply Hreads.
Qed.

End Restart.

(** A ledger of one new user, [erin], with one analysis and a manual
    award, on the reference runtime. *)
Lemma restart_reloads_ledger_witness :
  let calls :=
    [ Submit {| sub_user := "erin"; sub_session := "e1"; sub_score := 40;
                sub_angle := "side"; sub_scores := None |};
      Award "erin" "perfectionist" ] in
  let w := perform_all calls (init None) in
  progress_data (init (disk w)) = reloaded <$> progress_data w.
Proof.
  cbv zeta.
  apply (restart_reloads_ledger
           [ Submit {| sub_user := "erin"; sub_session := "e1"; sub_score := 40;
                       sub_angle := "side"; sub_scores := None |};
             Award "erin" "perfectionist" ]).
  intros j Hj.
  assert (Hn : (j < 7)%nat) by (vm_compute in Hj; vm_compute; exact Hj).
  clear Hj.
  do 7 (destruct j as [|j]; [split; vm_compute; congruence|]).
  lia.
Defined.

(** ** Reading a file that cannot be read in full *)

Section Loading.
Context `{PyRuntime}.








End Loading.


(** ** A submission as the snapshot shows it *)

Lemma last_last_n {A} (n : nat) (l : list A) (x : A) :
  last (last_n (S n) (l ++ [x])) = Some x.
Proof.
  unfold last_n. rewrite length_app. cbn [length].
  rewrite drop_app_le by lia.
  by rewrite last_app.
Qed.

Section SubmissionSnapshot.
Context `{PyRuntime}.

(** After [add_analysis_record] the snapshot of the user counts one
    analysis more and the experience of the score more than before (from
    0 for a user the call created), and its score history ends with the
    session just recorded, with its score and angle. *)
Theorem submission_shows_in_snapshot (uid sid : string) (score : float)
    (ang : string) (scores : option (gmap string float)) (w : World) :
  let w' := (add_analysis_record uid sid score ang scores w).2 in
  exists snapshot entry,
    (get_user_progress uid w').1 = Some snapshot
    /\ Snapshot.total_analyses snapshot
       = from_option total_analyses 0 (progress_data w !! uid) + 1
    /\ Snapshot.experience_points snapshot
       = from_option experience_points 0 (progress_data w !! uid)
         + _calculate_experience_points score
    /\ is_Some (Snapshot.last_analysis_date snapshot)
    /\ last (Snapshot.score_history snapshot) = Some entry
    /\ ScoreEntry.session_id entry = sid
    /\ ScoreEntry.overall_score entry = score
    /\ ScoreEntry.angle entry = ang.
Proof.
  cbv zeta.
  destruct (add_analysis_record_run uid sid score ang scores w)
    as (k & record & t_last & lb & added & E & Hsid & Hscore & Hang & _).
  cbv zeta in E. rewrite E. cbn [snd].
  unfold get_user_progress, mbind, M_bind, get_progress. cbn [progress_data].
  rewrite lookup_insert_eq.
  destruct (_analyze_improvement_trends _ _) as [trends w1].
  eexists _, _. split; [reflexivity|].
  cbn [Snapshot.total_analyses Snapshot.experience_points
       Snapshot.last_analysis_date Snapshot.score_history
       recorded total_analyses experience_points last_analysis_date].
  unfold base_progress.
  split; [by destruct (progress_data w !! uid)|].
  split; [rewrite Hscore; by destruct (progress_data w !! uid)|].
  split; [by eexists|].
  unfold _get_score_history. cbn [recorded analysis_records].
  rewrite fmap_last, last_last_n. cbn [fmap option_fmap option_map].
  split; [reflexivity|]. done.
Qed.

End SubmissionSnapshot.
